(** * Sage chatbot: a shallow embedding of the application code

    The development follows the layout of the repository
    ([App/auth.py], [App/chat_service.py], [App/models.py],
    [App/database.py], [App/main.py]).  Part I holds the embedding, one
    module per source file, preceded by a small model of the Python
    run-time values the code manipulates.  Part II holds the lemmas and
    the theorems about it. *)

From Stdlib Require Import List String Ascii NArith ZArith Bool Arith Lia.
From Stdlib Require Import Sorted.
Import ListNotations.

Set Implicit Arguments.

(* ================================================================= *)
(** * Part I: the embedding *)
(* ================================================================= *)

(** ** Python run-time values *)

Module Py.

(** A Python [str] is a sequence of Unicode code points. *)
Definition str := list N.

Fixpoint bytes_of_string (s : string) : list N :=
  match s with
  | EmptyString => []
  | String a r => N_of_ascii a :: bytes_of_string r
  end.

(** [bytes.decode("utf-8")] on well-formed input; used to write the
    literals of the source, whose files are UTF-8. *)
Fixpoint utf8_decode (bs : list N) : str :=
  match bs with
  | [] => []
  | b0 :: r0 =>
    if (b0 <? 128)%N then b0 :: utf8_decode r0 else
    match r0 with
    | [] => []
    | b1 :: r1 =>
      if (b0 <? 224)%N
      then ((b0 - 192) * 64 + (b1 - 128))%N :: utf8_decode r1 else
      match r1 with
      | [] => []
      | b2 :: r2 =>
        if (b0 <? 240)%N
        then ((b0 - 224) * 4096 + (b1 - 128) * 64 + (b2 - 128))%N
             :: utf8_decode r2 else
        match r2 with
        | [] => []
        | b3 :: r3 =>
          ((b0 - 240) * 262144 + (b1 - 128) * 4096
           + (b2 - 128) * 64 + (b3 - 128))%N :: utf8_decode r3
        end
      end
    end
  end.

(** A string literal of the source. *)
Definition lit (s : string) : str := utf8_decode (bytes_of_string s).

Definition is_surrogate (c : N) : bool := ((55296 <=? c) && (c <=? 57343))%N.

(** Number of bytes [c] takes in UTF-8. *)
Definition utf8_width (c : N) : nat :=
  if (c <? 128)%N then 1
  else if (c <? 2048)%N then 2
  else if (c <? 65536)%N then 3
  else 4.

Definition utf8_bytes (c : N) : list N :=
  if (c <? 128)%N then [c]
  else if (c <? 2048)%N then [192 + c / 64; 128 + c mod 64]%N
  else if (c <? 65536)%N
    then [224 + c / 4096; 128 + (c / 64) mod 64; 128 + c mod 64]%N
  else [240 + c / 262144; 128 + (c / 4096) mod 64;
        128 + (c / 64) mod 64; 128 + c mod 64]%N.

(** The exceptions the modelled code raises or catches.  The three
    [jose] exceptions form one hierarchy: [ExpiredSignatureError] and
    [JWTClaimsError] are subclasses of [JWTError]. *)
Inductive exn : Type :=
| ValueError (msg : str)
| IndexError
| KeyError (key : str)
| UnicodeEncodeError
| HTTPException (status_code : Z) (detail : str)
| JWTError
| ExpiredSignatureError
| JWTClaimsError.

Inductive result (A : Type) : Type :=
| Ok (a : A)
| Raise (e : exn).
Arguments Ok {A} a.
Arguments Raise {A} e.

(** [s.encode("utf-8")]: a lone surrogate cannot be encoded. *)
Fixpoint encode_utf8 (s : str) : result (list N) :=
  match s with
  | [] => Ok []
  | c :: r =>
    if is_surrogate c then Raise UnicodeEncodeError
    else match encode_utf8 r with
         | Ok bs => Ok (utf8_bytes c ++ bs)
         | Raise e => Raise e
         end
  end.

(** [len(s)] *)
Definition len (s : str) : nat := List.length s.

(** [s == t] *)
Fixpoint eqb (s t : str) : bool :=
  match s, t with
  | [], [] => true
  | a :: s', b :: t' => (a =? b)%N && eqb s' t'
  | _, _ => false
  end.

(** Truth value of a string: the empty string is false. *)
Definition truthy (s : str) : bool :=
  match s with [] => false | _ :: _ => true end.

(** Truth value of an [Optional[str]]: [None] and [""] are false. *)
Definition truthy_opt (o : option str) : bool :=
  match o with Some s => truthy s | None => false end.

(** [c.lower()] on the letters [A]-[Z]; other code points are left as
    they are (for code points beyond ASCII Python consults the Unicode
    case tables, which lie outside this model; every keyword the
    application searches for is ASCII). *)
Definition lower_char (c : N) : N :=
  if ((65 <=? c) && (c <=? 90))%N then (c + 32)%N else c.

(** [s.lower()] *)
Definition lower (s : str) : str := map lower_char s.

(** [c.isspace()]: the white space [strip()] and [split()] remove. *)
Definition is_space (c : N) : bool :=
  (((9 <=? c) && (c <=? 13)) || ((28 <=? c) && (c <=? 32))
   || (c =? 133) || (c =? 160) || (c =? 5760)
   || ((8192 <=? c) && (c <=? 8202)) || (c =? 8232) || (c =? 8233)
   || (c =? 8239) || (c =? 8287) || (c =? 12288))%N.

Fixpoint lstrip (s : str) : str :=
  match s with
  | [] => []
  | c :: r => if is_space c then lstrip r else s
  end.

Definition rstrip (s : str) : str := rev (lstrip (rev s)).

(** [s.strip()] *)
Definition strip (s : str) : str := rstrip (lstrip s).

Definition flush (cur : str) (rest : list str) : list str :=
  match cur with [] => rest | _ :: _ => rev cur :: rest end.

(** [cur] holds, reversed, the word being read. *)
Fixpoint split_from (cur : str) (s : str) : list str :=
  match s with
  | [] => flush cur []
  | c :: r =>
    if is_space c then flush cur (split_from [] r)
    else split_from (c :: cur) r
  end.

(** [s.split()]: the maximal runs of non-space characters. *)
Definition split (s : str) : list str := split_from [] s.

Fixpoint mem (c : N) (cs : list N) : bool :=
  match cs with
  | [] => false
  | d :: r => (c =? d)%N || mem c r
  end.

Fixpoint re_split_from (seps : list N) (cur : str) (s : str) : list str :=
  match s with
  | [] => [rev cur]
  | c :: r =>
    if mem c seps then rev cur :: re_split_from seps [] r
    else re_split_from seps (c :: cur) r
  end.

(** [re.split("[...]", s)] for a character class [seps]: the pieces
    between the separators, empty pieces included. *)
Definition re_split (seps : list N) (s : str) : list str :=
  re_split_from seps [] s.

(** [sep.join(ws)] *)
Fixpoint join (sep : str) (ws : list str) : str :=
  match ws with
  | [] => []
  | [w] => w
  | w :: r => w ++ sep ++ join sep r
  end.

(** [s.startswith(p)] *)
Fixpoint startswith (s p : str) {struct p} : bool :=
  match p, s with
  | [], _ => true
  | _ :: _, [] => false
  | a :: p', b :: s' => (a =? b)%N && startswith s' p'
  end.

(** [sub in s] *)
Fixpoint contains (sub s : str) : bool :=
  startswith s sub ||
  match s with
  | [] => false
  | _ :: r => contains sub r
  end.

(** [sub] occurs in [s]: what [sub in s] decides. *)
Definition substring (sub s : str) : Prop :=
  exists before after, s = before ++ sub ++ after.

(** [any(kw in s for kw in kws)] *)
Definition any_in (kws : list str) (s : str) : bool :=
  existsb (fun kw => contains kw s) kws.

(** [tmpl.format(arg)] for a template with one [{}] field and no other
    brace, as all the templates of the application are. *)
Fixpoint format (tmpl arg : str) : str :=
  match tmpl with
  | [] => []
  | c :: r =>
    match r with
    | d :: r' =>
      if ((c =? 123) && (d =? 125))%N then arg ++ r'
      else c :: format r arg
    | [] => [c]
    end
  end.

(** [s[n:]] *)
Definition slice_from (n : nat) (s : str) : str := skipn n s.

(** [xs[:n]] *)
Definition slice_to {A} (n : nat) (xs : list A) : list A := firstn n xs.

(** [d.get(k)] on a dictionary kept as the list of its items. *)
Fixpoint dict_get {V} (d : list (str * V)) (k : str) : option V :=
  match d with
  | [] => None
  | (k', v) :: r => if eqb k' k then Some v else dict_get r k
  end.

(** [d.get(k, default)] *)
Definition dict_get_default {V} (d : list (str * V)) (k : str) (dflt : V) : V :=
  match dict_get d k with Some v => v | None => dflt end.

(** [d[k]] *)
Definition dict_item {V} (d : list (str * V)) (k : str) : result V :=
  match dict_get d k with Some v => Ok v | None => Raise (KeyError k) end.

(** The values a caller can pass where the code expects a [str]. *)
Inductive value : Type :=
| VNone
| VBool (b : bool)
| VInt (z : Z)
| VBytes (bs : list N)
| VStr (s : str).


End Py.

Import Py.

(** ** The libraries [auth.py] calls *)

(** [python-jose].  A token is a compact JWS: what [jws_sign] returns
    and [jws_verify] parses are strings.  The signature algorithm
    (HMAC-SHA256) and the base64/JSON serialisation are the library's;
    the model keeps them abstract and takes from the library the claim
    validation that [jwt.decode] performs after the signature check. *)
Module Jose.

(** The payload of a token, with the two claims the application
    writes: ["sub"] and ["exp"] (seconds since the epoch).  Either may
    be absent from a token made elsewhere. *)
Record claims : Type := { sub : option str; exp : option Z }.

Class Lib : Type := {
  (** [jws.sign(payload, key, algorithm="HS256")] *)
  jws_sign : claims -> str -> str;
  (** [jws.verify(token, key, ["HS256"])]: the payload of a well-formed
      token whose signature verifies under [key]; [None] stands for the
      [JWSError] raised otherwise. *)
  jws_verify : str -> str -> option claims
}.

(** What the application needs from the library: a token verifies under
    the key that signed it and yields the payload that was signed. *)
Class Laws (L : Lib) : Prop := {
  verify_sign : forall c k, jws_verify (jws_sign c k) k = Some c
}.

(** [isinstance(e, JWTError)] *)
Definition is_JWTError (e : exn) : bool :=
  match e with
  | JWTError | ExpiredSignatureError | JWTClaimsError => true
  | _ => false
  end.

(** [jwt.encode(payload, key, algorithm="HS256")] *)
Definition encode {L : Lib} (payload : claims) (key : str) : str :=
  jws_sign payload key.

(** [jwt.decode(token, key, algorithms=["HS256"])] at clock reading
    [now]: a [JWSError] is re-raised as [JWTError]; a token whose
    ["exp"] lies before [now] raises [ExpiredSignatureError]. *)
Definition decode {L : Lib} (now : Z) (token key : str) : result claims :=
  match jws_verify token key with
  | None => Raise JWTError
  | Some c =>
    match exp c with
    | Some e => if (e <? now)%Z then Raise ExpiredSignatureError else Ok c
    | None => Ok c
    end
  end.

End Jose.

(** [passlib].  [CryptContext(schemes=["bcrypt"])]: hashing draws a
    salt, here an explicit argument; the library may itself refuse a
    secret. *)
Module Passlib.

Class CryptContext : Type := {
  hash : str -> list N -> result str;
  verify : str -> str -> bool
}.

(** What the application needs from the library: a secret verifies
    against every hash the context made of it. *)
Class Laws (C : CryptContext) : Prop := {
  verify_hash : forall secret salt hashed,
    hash secret salt = Ok hashed -> verify secret hashed = true
}.

End Passlib.

(** ** App/auth.py *)

Module Auth.

Definition SECRET_KEY : str := lit "sage-secret-key-change-in-production".
Definition ACCESS_TOKEN_EXPIRE_DAYS : Z := 7.

(** [timedelta(days=d)] in seconds. *)
Definition days (d : Z) : Z := (d * 86400)%Z.

Section WithLibraries.
Context {pwd_context : Passlib.CryptContext} {jwt : Jose.Lib}.

Definition hash_password (password : value) (salt : list N) : result str :=
  match password with
  | VStr p =>
    match encode_utf8 p with
    | Raise e => Raise e
    | Ok bs =>
      if 72 <? List.length bs
      then Raise (HTTPException 400 (lit "Password too long"))
      else Passlib.hash p salt
    end
  | _ => Raise (ValueError (lit "Password must be string"))
  end.


(** [utcnow] is the reading of the clock, in seconds. *)
Definition create_token (utcnow : Z) (username : str) : str :=
  let expire := (utcnow + days ACCESS_TOKEN_EXPIRE_DAYS)%Z in
  let payload := {| Jose.sub := Some username; Jose.exp := Some expire |} in
  Jose.encode payload SECRET_KEY.

Definition decode_token (utcnow : Z) (token : str) : result (option str) :=
  match Jose.decode utcnow token SECRET_KEY with
  | Ok payload => Ok (Jose.sub payload)
  | Raise e => if Jose.is_JWTError e then Ok None else Raise e
  end.

End WithLibraries.

End Auth.

(** ** App/models.py *)

Module Models.

Definition within (lo hi : nat) (s : str) : bool :=
  (lo <=? len s) && (len s <=? hi).

Record ChatMessage : Type := { message : str }.

(** [message: str = Field(..., min_length=1, max_length=2000)] *)
Definition ChatMessage_valid (m : ChatMessage) : bool :=
  within 1 2000 (message m).

Record ChatResponse : Type := { response : str; suggestions : list str }.

Record UserRegister : Type := { username : str; email : str; password : str }.



(** [token_type] defaults to ["bearer"]. *)
Record TokenResponse : Type := { access_token : str; token_type : str }.

End Models.

(** ** App/chat_service.py *)

Module ChatService.

Local Open Scope string_scope.

(** *** What the module reads from outside *)

(** [app.config]: the two optional credentials; [""] when unset. *)
Record config : Type := { OPENAI_API_KEY : str; GROQ_API_KEY : str }.

Inductive provider : Type := OpenAI | Groq.

(** Outcome of one HTTP request to a provider: an exception (timeout,
    refused connection, ...) or a response with its status code and the
    text at [choices[0].message.content] of its body, absent when the
    body has no such string. *)
Inductive reply : Type :=
| Failed
| Response (status_code : Z) (content : option str).

(** The surroundings of one call: what each provider would answer to a
    message, and the values the random generator yields, in order. *)
Record world : Type := {
  http : provider -> str -> reply;
  entropy : nat -> N
}.

(** What a call changes: how many random values were drawn, and which
    providers were contacted. *)
Record effects : Type := { draws : nat; calls : list provider }.

Definition start : effects := {| draws := 0; calls := [] |}.

(** *** Computations with effects and exceptions *)

Definition M (A : Type) : Type := effects -> result A * effects.

Definition ret {A} (a : A) : M A := fun s => (Ok a, s).

Definition raise {A} (e : exn) : M A := fun s => (Raise e, s).

Definition bind {A B} (c : M A) (k : A -> M B) : M B :=
  fun s => match c s with
           | (Ok a, s') => k a s'
           | (Raise e, s') => (Raise e, s')
           end.

Definition lift {A} (r : result A) : M A := fun s => (r, s).

Notation "x <- c ;; k" := (bind c (fun x => k))
  (at level 61, c at next level, right associativity).

(** *** Constants *)

Definition EMPATHETIC_RESPONSES : list (str * list str) :=
  [(lit "depression",
    [ lit "I hear you, and what you're feeling is valid. Depression can make everything feel heavy. Remember, you don't have to face this alone. Have you considered reaching out to a trusted friend or professional?";
      lit "That sounds really difficult. It takes courage to open up about what you're going through. Small steps matter—even getting through today is an achievement. Be gentle with yourself.";
      lit "Thank you for sharing. Depression can feel isolating, but many people understand what you're experiencing. Consider talking to a counselor or therapist who can provide professional support.";
      lit "What you're describing is hard to carry. You matter, and your feelings are real. Sometimes the bravest thing is to ask for help. Would you feel able to reach out to someone today?";
      lit "I'm glad you're here. It's okay to not be okay. Many people find that small routines—getting outside, a short walk, or a phone call—can help a little. What feels possible for you right now?" ]);
   (lit "anxiety",
    [ lit "I understand how overwhelming anxiety can feel. Your feelings are valid. Have you tried grounding techniques like the 5-4-3-2-1 method? Notice 5 things you see, 4 you hear, 3 you touch, 2 you smell, 1 you taste.";
      lit "Anxiety can make everything feel urgent. Remember to breathe—slow, deep breaths can help calm your nervous system. You're not alone in this. Many find relief through therapy, mindfulness, or talking to someone they trust.";
      lit "What you're experiencing is real and challenging. It's okay to take things one moment at a time. Would it help to focus on something simple right now, like your breathing?";
      lit "I hear you. When anxiety spikes, it can feel like too much. Try naming what you see around you or feeling your feet on the ground. You're safe in this moment." ]);
   (lit "stress",
    [ lit "Stress can feel overwhelming when it builds up. It's important to take breaks when you can. Going for a short walk, listening to music, or doing something you enjoy can help reset your mind.";
      lit "You're carrying a lot right now. Remember that it's okay to ask for help or say no to things that feel like too much. Prioritizing your wellbeing isn't selfish—it's necessary.";
      lit "Stress takes a real toll. What's one small thing you could do today to give yourself a moment of rest? Even 5 minutes of quiet can make a difference.";
      lit "It sounds like a lot is on your plate. You don't have to do everything at once. What's one thing you could set aside or delegate, even just for today?" ]);
   (lit "loneliness",
    [ lit "Feeling lonely is difficult, and it's more common than many people realize. Even small connections—a text, a call, or joining an online community—can help.";
      lit "Loneliness can make us feel invisible. But you matter. Consider reaching out to someone today, even if it feels hard. They might be glad you did.";
      lit "You're not alone in feeling alone. Many people struggle with this. Support groups, hobby clubs, or volunteering can be ways to build meaningful connections.";
      lit "Connection doesn't have to be big. A short message, a wave to a neighbour, or a walk in a park can remind us we're part of the world. Is there one person or place you could reach out to this week?" ]);
   (lit "sleep",
    [ lit "Sleep and mood are closely linked. Struggling to sleep can make everything feel harder. A consistent bedtime, limiting screens before bed, and a calm routine can help. If it persists, a doctor can help rule out sleep issues.";
      lit "Not sleeping well is exhausting and can affect how you feel during the day. Try to keep a regular schedule and avoid caffeine late in the day. You're not alone in this." ]);
   (lit "anger",
    [ lit "Anger can be a way our mind and body respond to stress or hurt. It's valid to feel it. Taking a pause, stepping away, or writing it out can sometimes help before we respond.";
      lit "Feeling angry doesn't make you a bad person. It often means something matters to you or something feels unfair. If you can, give yourself a moment before reacting. You deserve that space." ]);
   (lit "general",
    [ lit "I'm here to listen. Whatever you're going through, your feelings matter. Would you like to tell me more about what's on your mind?";
      lit "Thank you for reaching out. It takes strength to acknowledge when you're struggling. Remember, seeking support is a sign of courage, not weakness.";
      lit "I hear you. Mental health challenges are real and valid. If things feel overwhelming, please consider speaking with a mental health professional—they're trained to help.";
      lit "You're not alone. Many people have walked similar paths and found their way through. What would feel helpful to talk about right now?";
      lit "Whatever you're feeling, it's okay to feel it. Take your time. I'm here when you want to share more." ])].

Definition CRISIS_KEYWORDS : list str :=
  [lit "suicide"; lit "suicidal"; lit "kill myself"; lit "end my life"; lit "want to die"; lit "self-harm"; lit "hurt myself"].

Definition CRISIS_MESSAGE : str :=
  lit "I'm concerned about what you've shared. If you're in crisis, please reach out immediately. India helplines (24/7, toll-free): Tele-MANAS: 14416 or 1800-89-14416 | Hello! Lifeline: 1800-121-3667 | KIRAN: 1800-599-0019 | Vandrevala Foundation: 1860-2662-345 / 1800-2333-330".

Definition REFLECTION_PREFIXES : list str :=
  [lit "You shared that {} — "; lit "It sounds like {} — "; lit "Hearing that {} — "].

(** The dictionary [_fallback_response] builds on each call. *)
Definition suggestions_map : list (str * list str) :=
  [(lit "depression", [lit "Talk about what helps"; lit "I want to try therapy"; lit "Coping strategies"]);
   (lit "anxiety", [lit "Breathing exercises"; lit "Grounding techniques"; lit "When to see a professional"]);
   (lit "stress", [lit "Stress management tips"; lit "Setting boundaries"; lit "Self-care ideas"]);
   (lit "loneliness", [lit "Building connections"; lit "Online communities"; lit "Volunteering"]);
   (lit "sleep", [lit "Sleep routine tips"; lit "When to see a doctor"; lit "Relaxation before bed"]);
   (lit "anger", [lit "Managing anger"; lit "Safe ways to express"; lit "When to get support"]);
   (lit "general", [lit "Tell me more"; lit "I need resources"; lit "Crisis support"])].

(** *** Pure functions *)

Definition _detect_topic (message : str) : str :=
  let msg_lower := lower message in
  if any_in (map lit ["depress"; "sad"; "hopeless"; "empty"; "worthless"; "down"; "low"]) msg_lower
  then lit "depression"
  else if any_in (map lit ["anxious"; "anxiety"; "panic"; "worry"; "worried"; "nervous"; "scared"]) msg_lower
  then lit "anxiety"
  else if any_in (map lit ["stress"; "stressed"; "overwhelm"; "pressure"; "busy"; "tired"]) msg_lower
  then lit "stress"
  else if any_in (map lit ["lonely"; "alone"; "isolat"; "disconnect"; "no one"; "friend"]) msg_lower
  then lit "loneliness"
  else if any_in (map lit ["sleep"; "insomnia"; "tired"; "exhausted"; "can't sleep"]) msg_lower
  then lit "sleep"
  else if any_in (map lit ["angry"; "anger"; "frustrat"; "irritat"; "mad"]) msg_lower
  then lit "anger"
  else lit "general".

(** [re.split] returns at least one piece, so [[0]] is the head. *)
Definition _short_reflection (message : str) (max_words : nat) : option str :=
  let message := strip message in
  if (len message <? 10)%nat then None else
  let first := strip (hd [] (re_split (lit ".!?") message)) in
  let words := slice_to max_words (split first) in
  if (List.length words <? 2)%nat then None else
  Some (lower (join (lit " ") words)).

(** The default of [max_words]. *)
Definition max_words_default : nat := 8.

Definition _is_crisis (message : str) : bool :=
  let msg_lower := lower message in
  any_in CRISIS_KEYWORDS msg_lower.

(** [k / 2^53 < 0.5] *)
Definition lt_half (k : N) : bool := (k <? 2 ^ 52)%N.

(** *** Functions with effects *)

Section InWorld.
Variable cfg : config.
Variable w : world.

Definition next_random : M N :=
  fun s => (Ok (entropy w (draws s)),
            {| draws := S (draws s); calls := calls s |}).

(** [random.choice(xs)]: a uniformly drawn index below [len(xs)];
    [IndexError] on an empty sequence. *)
Definition random_choice {A} (xs : list A) : M A :=
  r <- next_random ;;
  match nth_error xs (N.to_nat r mod List.length xs) with
  | Some x => ret x
  | None => raise IndexError
  end.

(** [random.random()] yields [k / 2^53] for a uniformly drawn integer
    [0 <= k < 2^53]; the computation returns [k]. *)
Definition random_random : M N :=
  r <- next_random ;;
  ret (r mod 2 ^ 53)%N.

Definition http_post (p : provider) (message : str) : M reply :=
  fun s => (Ok (http w p message),
            {| draws := draws s; calls := (calls s ++ [p])%list |}).

(** The body shared by [_openai_response] and [_groq_response] once the
    key is known to be set: the request, and [None] for anything but a
    200 response carrying a text. *)
Definition completion (p : provider) (message : str) : M (option str) :=
  r <- http_post p message ;;
  match r with
  | Response status (Some content) =>
    if (status =? 200)%Z then ret (Some (strip content)) else ret None
  | _ => ret None
  end.

Definition _openai_response (message : str) : M (option str) :=
  if negb (truthy (OPENAI_API_KEY cfg)) then ret None
  else completion OpenAI message.

Definition _groq_response (message : str) : M (option str) :=
  if negb (truthy (GROQ_API_KEY cfg)) then ret None
  else completion Groq message.

Definition get_ai_response (message : str) : M (option str) :=
  result <- _openai_response message ;;
  if truthy_opt result then ret result
  else _groq_response message.

Definition _fallback_response (message : str) : M (str * list str) :=
  let topic := _detect_topic message in
  general <- lift (dict_item EMPATHETIC_RESPONSES (lit "general")) ;;
  let responses := dict_get_default EMPATHETIC_RESPONSES topic general in
  base <- random_choice responses ;;
  let reflection := _short_reflection message max_words_default in
  response <-
    match reflection with
    | Some r =>
      if truthy r then
        x <- random_random ;;
        if lt_half x then
          tmpl <- random_choice REFLECTION_PREFIXES ;;
          let prefix := format tmpl r in
          ret (prefix ++ base)%list
        else ret base
      else ret base
    | None => ret base
    end ;;
  general_suggestions <- lift (dict_item suggestions_map (lit "general")) ;;
  let suggestions := dict_get_default suggestions_map topic general_suggestions in
  ret (response, suggestions).

Definition get_chat_response (message : str) : M (str * list str) :=
  if _is_crisis message then
    ret (CRISIS_MESSAGE,
         map lit ["Call Tele-MANAS 14416"; "Call KIRAN 1800-599-0019";
                  "Reach out to someone you trust"])
  else
    ai_response <- get_ai_response message ;;
    match ai_response with
    | Some text =>
      if truthy text then
        let suggestions :=
          map lit ["Tell me more"; "What coping strategies help?";
                   "I need professional help"] in
        ret (text, suggestions)
      else _fallback_response message
    | None => _fallback_response message
    end.

End InWorld.

(** *** Notions used to state what the functions do *)

(** The keyword lists of [_detect_topic], in the order it tries them. *)
Definition TOPIC_KEYWORDS : list (str * list str) :=
  [(lit "depression",
    map lit ["depress"; "sad"; "hopeless"; "empty"; "worthless"; "down"; "low"]);
   (lit "anxiety",
    map lit ["anxious"; "anxiety"; "panic"; "worry"; "worried"; "nervous"; "scared"]);
   (lit "stress",
    map lit ["stress"; "stressed"; "overwhelm"; "pressure"; "busy"; "tired"]);
   (lit "loneliness",
    map lit ["lonely"; "alone"; "isolat"; "disconnect"; "no one"; "friend"]);
   (lit "sleep",
    map lit ["sleep"; "insomnia"; "tired"; "exhausted"; "can't sleep"]);
   (lit "anger",
    map lit ["angry"; "anger"; "frustrat"; "irritat"; "mad"])].

(** Ordered keyword classification as the specification words it: the
    first topic of the table one of whose keywords occurs in the text
    wins, and ["general"] is the default. *)
Fixpoint first_matching_topic (table : list (str * list str)) (text : str)
  : str :=
  match table with
  | [] => lit "general"
  | (topic, keywords) :: rest =>
    if any_in keywords text then topic
    else first_matching_topic rest text
  end.

(** The seven topics. *)
Definition TOPICS : list str :=
  map lit ["depression"; "anxiety"; "stress"; "loneliness"; "sleep";
           "anger"; "general"].

(** The template pool and the suggestions [_fallback_response] looks
    up for a topic. *)
Definition pool_of (topic : str) : list str :=
  dict_get_default EMPATHETIC_RESPONSES topic [].

Definition suggestions_of (topic : str) : list str :=
  dict_get_default suggestions_map topic [].

(** The check that a topic has a non-empty pool and three suggestions. *)
Definition topic_tables_ok (topic : str) : bool :=
  match dict_get EMPATHETIC_RESPONSES topic, dict_get suggestions_map topic with
  | Some (_ :: _), Some [_; _; _] => true
  | _, _ => false
  end.

(** The first clause of a message: the text before its first [.], [!]
    or [?], white space trimmed, as [_short_reflection] takes it. *)
Definition first_clause (message : str) : str :=
  strip (hd [] (re_split (lit ".!?") (strip message))).

(** The effects after [n] more random draws. *)
Definition drawn (n : nat) (s : effects) : effects :=
  {| draws := n + draws s; calls := calls s |}.






(** The keyword table without the keywords that never decide: a text
    with "stressed" has "stress", one with "can't sleep" has "sleep", and
    "tired" is tried for stress before it is tried for sleep. *)
Definition DECIDING_KEYWORDS : list (str * list str) :=
  [(lit "depression",
    map lit ["depress"; "sad"; "hopeless"; "empty"; "worthless"; "down"; "low"]);
   (lit "anxiety",
    map lit ["anxious"; "anxiety"; "panic"; "worry"; "worried"; "nervous"; "scared"]);
   (lit "stress",
    map lit ["stress"; "overwhelm"; "pressure"; "busy"; "tired"]);
   (lit "loneliness",
    map lit ["lonely"; "alone"; "isolat"; "disconnect"; "no one"; "friend"]);
   (lit "sleep",
    map lit ["sleep"; "insomnia"; "exhausted"]);
   (lit "anger",
    map lit ["angry"; "anger"; "frustrat"; "irritat"; "mad"])].

(** No credential configured. *)
Definition no_credentials : config :=
  {| OPENAI_API_KEY := lit ""; GROQ_API_KEY := lit "" |}.

End ChatService.

(** ** App/database.py *)

Module Database.

(** The three tables of [init_db], a row per record.  Time stamps are
    clock readings in seconds. *)
Record user_row : Type := {
  u_id : Z;
  u_username : str;
  u_email : str;
  u_password_hash : str;
  u_created_at : Z
}.

Record session_row : Type := {
  s_id : Z;
  s_user_id : Z;
  s_created_at : Z
}.

Record message_row : Type := {
  m_id : Z;
  m_session_id : Z;
  m_role : str;
  m_content : str;
  m_created_at : Z
}.

(** The store: the rows of each table in insertion order, and for each
    [AUTOINCREMENT] key the largest row id the table ever held
    ([sqlite_sequence]). *)
Record db : Type := {
  users : list user_row;
  chat_sessions : list session_row;
  messages : list message_row;
  seq_users : Z;
  seq_chat_sessions : Z;
  seq_messages : Z
}.

(** The row id an [AUTOINCREMENT] key gives the next row: one more
    than the largest the table holds or ever held. *)
Definition next_rowid (seq : Z) (ids : list Z) : Z :=
  (fold_right Z.max seq ids + 1)%Z.

(** [INSERT INTO chat_sessions (user_id) VALUES (?)], at clock reading
    [now]; returns [last_insert_rowid()] with the new store. *)
Definition insert_chat_session (user_id now : Z) (d : db) : Z * db :=
  let id := next_rowid (seq_chat_sessions d) (map s_id (chat_sessions d)) in
  (id,
   {| users := users d;
      chat_sessions :=
        chat_sessions d
        ++ [{| s_id := id; s_user_id := user_id; s_created_at := now |}];
      messages := messages d;
      seq_users := seq_users d;
      seq_chat_sessions := id;
      seq_messages := seq_messages d |}).

(** [INSERT INTO messages (session_id, role, content) VALUES (?, ?, ?)] *)
Definition insert_message (session_id : Z) (role content : str) (now : Z)
  (d : db) : db :=
  let id := next_rowid (seq_messages d) (map m_id (messages d)) in
  {| users := users d;
     chat_sessions := chat_sessions d;
     messages :=
       messages d
       ++ [{| m_id := id; m_session_id := session_id; m_role := role;
              m_content := content; m_created_at := now |}];
     seq_users := seq_users d;
     seq_chat_sessions := seq_chat_sessions d;
     seq_messages := id |}.

(** [SELECT id FROM users WHERE username = ?] then [fetchone()] *)
Definition select_user_id (username : str) (d : db) : option Z :=
  match filter (fun u => eqb (u_username u) username) (users d) with
  | u :: _ => Some (u_id u)
  | [] => None
  end.

Fixpoint insert_by_time (m : message_row) (sorted : list message_row)
  : list message_row :=
  match sorted with
  | [] => [m]
  | x :: r =>
    if (m_created_at m <=? m_created_at x)%Z then m :: sorted
    else x :: insert_by_time m r
  end.

(** [ORDER BY m.created_at]; rows with equal stamps keep their order
    (SQL leaves their order open). *)
Definition order_by_created_at (rows : list message_row) : list message_row :=
  fold_right insert_by_time [] rows.

(** The query of [get_session_messages]:
    [FROM messages m JOIN chat_sessions s ON m.session_id = s.id
     JOIN users u ON s.user_id = u.id
     WHERE s.id = ? AND u.username = ? ORDER BY m.created_at],
    one message row for each triple of rows that meets the conditions. *)
Definition select_session_messages (session_id : Z) (username : str) (d : db)
  : list message_row :=
  order_by_created_at
    (flat_map (fun m =>
       flat_map (fun s =>
         flat_map (fun u =>
           if (m_session_id m =? s_id s)%Z && (s_user_id s =? u_id u)%Z
              && (s_id s =? session_id)%Z && eqb (u_username u) username
           then [m] else [])
         (users d))
       (chat_sessions d))
     (messages d)).

(** The key constraints of the schema: [PRIMARY KEY] on each [id],
    [UNIQUE] on [username] and [email]. *)
Record schema_ok (d : db) : Prop := {
  users_pk : NoDup (map u_id (users d));
  users_username_unique : NoDup (map u_username (users d));
  users_email_unique : NoDup (map u_email (users d));
  chat_sessions_pk : NoDup (map s_id (chat_sessions d));
  messages_pk : NoDup (map m_id (messages d))
}.

(** [INSERT INTO users (username, email, password_hash) VALUES (?, ?, ?)]
    at clock reading [now]; [None] stands for the [IntegrityError] of a
    [UNIQUE] constraint, which leaves the store as it was. *)
Definition insert_user (username email password_hash : str) (now : Z) (d : db)
  : option db :=
  if existsb (fun u => eqb (u_username u) username || eqb (u_email u) email)
       (users d)
  then None
  else
    let id := next_rowid (seq_users d) (map u_id (users d)) in
    Some
      {| users :=
           users d
           ++ [{| u_id := id; u_username := username; u_email := email;
                  u_password_hash := password_hash; u_created_at := now |}];
         chat_sessions := chat_sessions d;
         messages := messages d;
         seq_users := id;
         seq_chat_sessions := seq_chat_sessions d;
         seq_messages := seq_messages d |}.

(** [SELECT username, password_hash FROM users WHERE username = ?] then
    [fetchone()] *)
Definition select_user (username : str) (d : db) : option (str * str) :=
  match filter (fun u => eqb (u_username u) username) (users d) with
  | u :: _ => Some (u_username u, u_password_hash u)
  | [] => None
  end.

(** [(SELECT COUNT( * ) FROM messages m WHERE m.session_id = ?)] *)
Definition count_messages (session_id : Z) (d : db) : nat :=
  List.length (filter (fun m => (m_session_id m =? session_id)%Z) (messages d)).

Fixpoint insert_newest_first (s : session_row) (sorted : list session_row)
  : list session_row :=
  match sorted with
  | [] => [s]
  | x :: r =>
    if (s_created_at x <=? s_created_at s)%Z then s :: sorted
    else x :: insert_newest_first s r
  end.

(** [ORDER BY s.created_at DESC]; rows with equal stamps keep their
    order (SQL leaves their order open). *)
Definition order_by_created_at_desc (rows : list session_row)
  : list session_row :=
  fold_right insert_newest_first [] rows.

(** The query of [get_history]:
    [FROM chat_sessions s JOIN users u ON s.user_id = u.id
     WHERE u.username = ? ORDER BY s.created_at DESC LIMIT 50],
    one session row for each pair of rows that meets the conditions. *)
Definition select_history (username : str) (d : db) : list session_row :=
  firstn 50
    (order_by_created_at_desc
       (flat_map (fun s =>
          flat_map (fun u =>
            if (s_user_id s =? u_id u)%Z && eqb (u_username u) username
            then [s] else [])
          (users d))
        (chat_sessions d))).

(** The references the application keeps between the tables (SQLite
    does not enforce the [FOREIGN KEY] clauses unless asked to). *)
Record refs_ok (d : db) : Prop := {
  message_session :
    forall m, In m (messages d) ->
      In (m_session_id m) (map s_id (chat_sessions d));
  session_user :
    forall s, In s (chat_sessions d) -> In (s_user_id s) (map u_id (users d))
}.

End Database.

(** ** App/main.py *)

Module Main.

Import Models Database ChatService.
Local Open Scope string_scope.

(** What the handlers read of a request.  Header names compare
    without regard to case, cookie names exactly. *)
Record Request : Type := {
  headers : list (str * str);
  cookies : list (str * str)
}.

(** [request.headers.get(name)] *)
Fixpoint headers_get (hs : list (str * str)) (name : str) : option str :=
  match hs with
  | [] => None
  | (k, v) :: r =>
    if eqb (lower k) (lower name) then Some v else headers_get r name
  end.

(** [request.cookies.get(name)] *)
Definition cookies_get (cs : list (str * str)) (name : str) : option str :=
  dict_get cs name.

(** A row of the answer of [get_session_messages]. *)
Record message_view : Type := {
  v_role : str;
  v_content : str;
  v_created_at : Z
}.

Definition view (m : message_row) : message_view :=
  {| v_role := m_role m; v_content := m_content m;
     v_created_at := m_created_at m |}.

Section Handlers.
Context {jwt : Jose.Lib}.
Variable cfg : config.
Variable w : world.
(** The reading of the clock while the request is served. *)
Variable now : Z.

Definition user_of_cookie (request : Request) : result (option str) :=
  match cookies_get (cookies request) (lit "sage_token") with
  | Some token =>
    if truthy token then Auth.decode_token now token else Ok None
  | None => Ok None
  end.

Definition get_current_user (request : Request) : result (option str) :=
  match headers_get (headers request) (lit "Authorization") with
  | Some auth =>
    if truthy auth && startswith auth (lit "Bearer ")
    then Auth.decode_token now (slice_from 7 auth)
    else user_of_cookie request
  | None => user_of_cookie request
  end.

Definition require_auth (request : Request) : result str :=
  match get_current_user request with
  | Raise e => Raise e
  | Ok user =>
    match user with
    | Some u =>
      if truthy u then Ok u
      else Raise (HTTPException 401 (lit "Not authenticated"))
    | None => Raise (HTTPException 401 (lit "Not authenticated"))
    end
  end.

(** The statements of [chat] that save one exchange. *)
Definition save_exchange (username message response : str) (d : db) : db :=
  match select_user_id username d with
  | Some user_id =>
    let (session_id, d1) := insert_chat_session user_id now d in
    let d2 := insert_message session_id (lit "user") message now d1 in
    insert_message session_id (lit "assistant") response now d2
  | None => d
  end.

(** [POST /api/chat] *)
Definition chat (message : ChatMessage) (request : Request)
  (d : db) (s : effects) : result ChatResponse * db * effects :=
  match require_auth request with
  | Raise e => (Raise e, d, s)
  | Ok username =>
    match get_chat_response cfg w (Models.message message) s with
    | (Raise e, s') => (Raise e, d, s')
    | (Ok (response, suggestions), s') =>
      (Ok {| Models.response := response; Models.suggestions := suggestions |},
       save_exchange username (Models.message message) response d, s')
    end
  end.

(** [GET /api/history/{session_id}] *)
Definition get_session_messages (session_id : Z) (request : Request)
  (d : db) : result (list message_view) * db :=
  match require_auth request with
  | Raise e => (Raise e, d)
  | Ok username =>
    let rows := select_session_messages session_id username d in
    match rows with
    | [] => (Raise (HTTPException 404 (lit "Session not found")), d)
    | _ :: _ => (Ok (map view rows), d)
    end
  end.

End Handlers.

(** A row of the answer of [get_history]. *)
Record session_view : Type := {
  h_id : Z;
  h_created_at : Z;
  h_msg_count : nat
}.

Section Accounts.
Context {pwd_context : Passlib.CryptContext} {jwt : Jose.Lib}.
(** The reading of the clock while the request is served. *)
Variable now : Z.

(** [POST /api/register]; [salt] is the salt the hashing draws.  The
    password is hashed while the arguments of the [INSERT] are
    evaluated, so its errors come first.  (The three [print] calls
    write to the standard output and are left out.) *)
Definition register (data : UserRegister) (salt : list N) (d : db)
  : result TokenResponse * db :=
  match Auth.hash_password (VStr (Models.password data)) salt with
  | Raise e => (Raise e, d)
  | Ok password_hash =>
    match insert_user (lower (Models.username data)) (lower (Models.email data))
            password_hash now d with
    | None =>
      (Raise (HTTPException 400 (lit "Username or email already exists")), d)
    | Some d' =>
      let token := Auth.create_token now (lower (Models.username data)) in
      (Ok {| access_token := token; token_type := lit "bearer" |}, d')
    end
  end.


(** [GET /api/me] *)
Definition me (request : Request) : result str :=
  match get_current_user now request with
  | Raise e => Raise e
  | Ok user =>
    match user with
    | Some u =>
      if truthy u then Ok u
      else Raise (HTTPException 401 (lit "Not authenticated"))
    | None => Raise (HTTPException 401 (lit "Not authenticated"))
    end
  end.

(** [GET /api/history] *)
Definition get_history (request : Request) (d : db)
  : result (list session_view) * db :=
  match require_auth now request with
  | Raise e => (Raise e, d)
  | Ok username =>
    let sessions :=
      map (fun s => {| h_id := s_id s; h_created_at := s_created_at s;
                       h_msg_count := count_messages (s_id s) d |})
          (select_history username d) in
    (Ok sessions, d)
  end.

End Accounts.

End Main.

(** ** Stand-ins for the libraries

    Transparent implementations of the two library interfaces, used to
    run the handlers on concrete requests.  The token of [Plain.jose]
    carries the key in clear: it has the interface and the law of the
    library and none of its secrecy, on which no statement below
    relies. *)

Module Plain.

Definition put_exp (e : option Z) : list N :=
  match e with
  | None => [0%N]
  | Some z => [1%N; if (z <? 0)%Z then 1%N else 0%N; Z.abs_N z]
  end.

Definition put_sub (s : option str) : list N :=
  match s with
  | None => [0%N]
  | Some u => 1%N :: u
  end.

Definition sign (c : Jose.claims) (key : str) : str :=
  N.of_nat (List.length key) :: key ++ put_exp (Jose.exp c) ++ put_sub (Jose.sub c).

Definition get_sub (e : option Z) (l : list N) : option Jose.claims :=
  match l with
  | [0%N] => Some {| Jose.sub := None; Jose.exp := e |}
  | 1%N :: u => Some {| Jose.sub := Some u; Jose.exp := e |}
  | _ => None
  end.

Definition get_claims (l : list N) : option Jose.claims :=
  match l with
  | 0%N :: r => get_sub None r
  | 1%N :: sg :: a :: r =>
    get_sub (Some (if (sg =? 0)%N then Z.of_N a else (- Z.of_N a)%Z)) r
  | _ => None
  end.

Definition verify (token key : str) : option Jose.claims :=
  match token with
  | [] => None
  | n :: r =>
    if ((n =? N.of_nat (List.length key))%N
        && eqb (firstn (N.to_nat n) r) key)%bool
    then get_claims (skipn (N.to_nat n) r)
    else None
  end.

Definition jose : Jose.Lib :=
  {| Jose.jws_sign := sign; Jose.jws_verify := verify |}.

Definition passlib : Passlib.CryptContext :=
  {| Passlib.hash := fun secret salt => Ok (lit "$2b$12$" ++ salt ++ secret);
     Passlib.verify := fun secret hashed =>
       eqb (skipn (List.length hashed - List.length secret) hashed) secret |}.

End Plain.

(** ** Sample surroundings

    Concrete configurations and worlds on which the statements of
    Part II are run. *)

Module Sample.

Import ChatService.
Local Open Scope string_scope.

Definition both_keys : config :=
  {| OPENAI_API_KEY := lit "sk-sample"; GROQ_API_KEY := lit "gsk-sample" |}.

(** Both providers answer every message; every random draw is [0]. *)
Definition answering : world :=
  {| http := fun _ _ => Response 200 (Some (lit "I am here for you."));
     entropy := fun _ => 0%N |}.

(** No provider answers; every random draw is [0]. *)
Definition silent : world :=
  {| http := fun _ _ => Failed; entropy := fun _ => 0%N |}.

(** The first provider answers with an error status, the second with
    a text. *)
Definition second_answers : world :=
  {| http := fun p _ =>
       match p with
       | OpenAI => Response 429 (Some (lit "rate limited"))
       | Groq => Response 200 (Some (lit "  Take a slow breath.  "))
       end;
     entropy := fun _ => 0%N |}.

(** No provider answers; the second draw, which decides on the
    reflection, is not below one half. *)
Definition plain_spoken : world :=
  {| http := fun _ _ => Failed;
     entropy := fun n => match n with 1 => (2 ^ 52)%N | _ => 0%N end |}.


(** Tokens of the stand-in library, issued at clock reading [0]. *)
Definition token_of (username : str) : str :=
  @Auth.create_token Plain.jose 0 username.

(** Tokens of the stand-in library, issued at clock reading [issued]. *)
Definition token_of' (issued : Z) (username : str) : str :=
  @Auth.create_token Plain.jose issued username.

Definition bearer (token : str) : Main.Request :=
  {| Main.headers := [(lit "Authorization", (lit "Bearer " ++ token)%list)];
     Main.cookies := [] |}.

(** A request with a bearer token that does not verify and a cookie
    that does. *)
Definition bad_bearer_good_cookie : Main.Request :=
  {| Main.headers := [(lit "authorization", lit "Bearer not-a-token")];
     Main.cookies := [(lit "sage_token", token_of (lit "alice"))] |}.

(** Two users with one session of two messages each. *)
Definition two_users : Database.db :=
  {| Database.users :=
       [ {| Database.u_id := 1; Database.u_username := lit "alice";
            Database.u_email := lit "alice@example.org";
            Database.u_password_hash := lit "$2b$12$a";
            Database.u_created_at := 10 |};
         {| Database.u_id := 2; Database.u_username := lit "bob";
            Database.u_email := lit "bob@example.org";
            Database.u_password_hash := lit "$2b$12$b";
            Database.u_created_at := 20 |} ];
     Database.chat_sessions :=
       [ {| Database.s_id := 1; Database.s_user_id := 1;
            Database.s_created_at := 30 |};
         {| Database.s_id := 2; Database.s_user_id := 2;
            Database.s_created_at := 40 |} ];
     Database.messages :=
       [ {| Database.m_id := 1; Database.m_session_id := 1;
            Database.m_role := lit "user";
            Database.m_content := lit "I feel low";
            Database.m_created_at := 30 |};
         {| Database.m_id := 2; Database.m_session_id := 1;
            Database.m_role := lit "assistant";
            Database.m_content := lit "I hear you.";
            Database.m_created_at := 30 |};
         {| Database.m_id := 3; Database.m_session_id := 2;
            Database.m_role := lit "user";
            Database.m_content := lit "I am so busy";
            Database.m_created_at := 40 |};
         {| Database.m_id := 4; Database.m_session_id := 2;
            Database.m_role := lit "assistant";
            Database.m_content := lit "You are carrying a lot.";
            Database.m_created_at := 40 |} ];
     Database.seq_users := 2; Database.seq_chat_sessions := 2;
     Database.seq_messages := 4 |}.

(** A registration with capitals in the name and the address. *)
Definition newcomer : Models.UserRegister :=
  {| Models.username := lit "Carol";
     Models.email := lit "Carol@Example.org";
     Models.password := lit "correct horse" |}.

End Sample.

(* ================================================================= *)
(** * Part II: properties *)
(* ================================================================= *)

(** ** Strings *)

(** Closes a goal that holds by running the model. *)
Ltac run := vm_compute; reflexivity.

(** Closes a goal that assumes equal two values that differ. *)
Ltac differ := let H := fresh in intros H; vm_compute in H; discriminate H.

Module PyFacts.

Local Open Scope string_scope.

Example lit_decodes_utf8 : lit "a—b" = [97; 8212; 98]%N.
Proof. run. Qed.

Example encode_two_bytes : encode_utf8 (lit "é") = Ok [195; 169]%N.
Proof. run. Qed.

Example encode_lone_surrogate : encode_utf8 [55296%N] = Raise UnicodeEncodeError.
Proof. run. Qed.

Example lower_ascii : lower (lit "Kill MYSELF") = lit "kill myself".
Proof. run. Qed.

Example strip_both_ends : strip (lit "  a b  ") = lit "a b".
Proof. run. Qed.

Example split_runs : split (lit " hello  big world ") = map lit ["hello"; "big"; "world"].
Proof. run. Qed.

Example re_split_pieces :
  re_split (lit ".!?") (lit "Hi there. You!") = map lit ["Hi there"; " You"; ""].
Proof. run. Qed.

Example join_words : join (lit " ") (map lit ["a"; "b"; "c"]) = lit "a b c".
Proof. run. Qed.

Example format_field :
  format (lit "You shared that {} — ") (lit "i am here")
  = lit "You shared that i am here — ".
Proof. run. Qed.

Local Close Scope string_scope.

Lemma eqb_refl (s : str) : eqb s s = true.
Proof.
  induction s as [|c s IH]; simpl; [reflexivity|].
  now rewrite N.eqb_refl, IH.
Qed.

Lemma eqb_eq (s t : str) : eqb s t = true <-> s = t.
Proof.
  split; [|intros ->; apply eqb_refl].
  revert t; induction s as [|c s IH]; intros [|d t]; simpl; try easy.
  intros H; apply andb_true_iff in H as [Hc Hs].
  apply N.eqb_eq in Hc; subst d. f_equal; auto.
Qed.

Lemma startswith_app (p r : str) : startswith (p ++ r) p = true.
Proof.
  induction p as [|c p IH]; simpl; [reflexivity|].
  now rewrite N.eqb_refl, IH.
Qed.

Lemma startswith_inv (p s : str) :
  startswith s p = true -> exists r, s = p ++ r.
Proof.
  revert s; induction p as [|c p IH]; intros s H.
  - exists s; reflexivity.
  - destruct s as [|d s]; simpl in H; [discriminate|].
    apply andb_true_iff in H as [Hc Hs].
    apply N.eqb_eq in Hc; subst d.
    destruct (IH _ Hs) as [r ->]. exists r; reflexivity.
Qed.

Lemma startswith_contains (sub s : str) :
  startswith s sub = true -> contains sub s = true.
Proof. destruct s; simpl; intros ->; reflexivity. Qed.

(** [in] decides occurrence. *)
Lemma contains_iff (sub s : str) : contains sub s = true <-> substring sub s.
Proof.
  split.
  - induction s as [|c s IH]; simpl; intros H.
    + rewrite orb_false_r in H. apply startswith_inv in H as [r Hr].
      exists [], r. exact Hr.
    + apply orb_true_iff in H as [H|H].
      * apply startswith_inv in H as [r Hr]. exists [], r. exact Hr.
      * destruct (IH H) as (b & a & ->). exists (c :: b), a. reflexivity.
  - intros (b & a & ->). induction b as [|c b IH].
    + rewrite app_nil_l. apply startswith_contains, startswith_app.
    + simpl. rewrite IH. apply orb_true_r.
Qed.

Lemma any_in_iff (kws : list str) (s : str) :
  any_in kws s = true <-> exists kw, In kw kws /\ substring kw s.
Proof.
  unfold any_in. rewrite existsb_exists.
  split; intros (kw & Hin & H); exists kw; split; auto;
    now apply contains_iff.
Qed.

End PyFacts.

(** ** The response engine *)

Module ChatFacts.

Import PyFacts ChatService.
Local Open Scope string_scope.

Example short_reflection_first_clause :
  _short_reflection (lit "  I have been feeling really low lately. Help!")
    max_words_default
  = Some (lit "i have been feeling really low lately").
Proof. run. Qed.

Example short_reflection_eight_words :
  _short_reflection (lit "one two three four five six seven eight nine ten")
    max_words_default
  = Some (lit "one two three four five six seven eight").
Proof. run. Qed.

Example first_provider_answers :
  get_chat_response Sample.both_keys Sample.answering (lit "hello") start
  = (Ok (lit "I am here for you.",
         map lit ["Tell me more"; "What coping strategies help?";
                  "I need professional help"]),
     {| draws := 0; calls := [OpenAI] |}).
Proof. run. Qed.

Example second_provider_answers :
  get_chat_response Sample.both_keys Sample.second_answers (lit "hello") start
  = (Ok (lit "Take a slow breath.",
         map lit ["Tell me more"; "What coping strategies help?";
                  "I need professional help"]),
     {| draws := 0; calls := [OpenAI; Groq] |}).
Proof. run. Qed.

Example providers_fail_then_fallback :
  get_chat_response Sample.both_keys Sample.plain_spoken
    (lit "I feel so anxious today") start
  = (Ok (nth 0 (pool_of (lit "anxiety")) [], suggestions_of (lit "anxiety")),
     {| draws := 2; calls := [OpenAI; Groq] |}).
Proof. run. Qed.

Lemma random_choice_ok (w : world) {A} (xs : list A) (s : effects) :
  xs <> [] ->
  exists x, In x xs /\ random_choice w xs s = (Ok x, drawn 1 s).
Proof.
  intros Hne. unfold random_choice, bind, next_random, drawn; simpl.
  destruct (nth_error xs (N.to_nat (entropy w (draws s)) mod List.length xs))
    as [x|] eqn:E.
  - exists x; split; [eapply nth_error_In; eauto | reflexivity].
  - exfalso. apply nth_error_None in E.
    assert (List.length xs <> 0) as Hl by (destruct xs; simpl; congruence).
    pose proof (Nat.mod_upper_bound (N.to_nat (entropy w (draws s))) _ Hl).
    lia.
Qed.

Lemma detect_topic_first_match (message : str) :
  _detect_topic message = first_matching_topic TOPIC_KEYWORDS (lower message).
Proof. reflexivity. Qed.

Lemma detect_topic_in_TOPICS (message : str) :
  In (_detect_topic message) TOPICS.
Proof.
  unfold _detect_topic.
  repeat match goal with
         | |- context [if ?b then _ else _] => destruct b
         end;
    cbv [TOPICS map In]; tauto.
Qed.

Lemma topic_tables (topic : str) :
  In topic TOPICS ->
  exists pool suggestions,
    dict_get EMPATHETIC_RESPONSES topic = Some pool /\ pool <> [] /\
    dict_get suggestions_map topic = Some suggestions /\
    List.length suggestions = 3.
Proof.
  intros Hin.
  assert (forallb topic_tables_ok TOPICS = true) as Hall
      by (vm_compute; reflexivity).
  rewrite forallb_forall in Hall. specialize (Hall _ Hin).
  unfold topic_tables_ok in Hall.
  destruct (dict_get EMPATHETIC_RESPONSES topic) as [[|b pool]|]; try discriminate.
  destruct (dict_get suggestions_map topic) as [[|x [|y [|z [|]]]]|];
    try discriminate.
  eexists _, _; repeat split; discriminate.
Qed.

(** What [_short_reflection] returns, in terms of the first clause. *)
Lemma short_reflection_cases (message : str) (max_words : nat) :
  let words := split (first_clause message) in
  _short_reflection message max_words =
    if (len (strip message) <? 10)%nat then None
    else if (List.length (slice_to max_words words) <? 2)%nat then None
    else Some (lower (join (lit " ") (slice_to max_words words))).
Proof. reflexivity. Qed.

Lemma short_reflection_none (message : str) :
  len (strip message) < 10 \/ List.length (split (first_clause message)) < 2 ->
  _short_reflection message max_words_default = None.
Proof.
  intros H. rewrite short_reflection_cases. cbv zeta.
  destruct (Nat.ltb_spec (len (strip message)) 10) as [|Hlen]; [reflexivity|].
  destruct H as [H|H]; [lia|].
  destruct (Nat.ltb_spec
              (List.length (slice_to max_words_default
                              (split (first_clause message)))) 2) as [|Hw];
    [reflexivity|].
  unfold slice_to in Hw. rewrite length_firstn in Hw. lia.
Qed.

Lemma short_reflection_some (message r : str) :
  _short_reflection message max_words_default = Some r ->
  10 <= len (strip message) /\
  2 <= List.length (split (first_clause message)) /\
  r = lower (join (lit " ")
               (slice_to max_words_default (split (first_clause message)))) /\
  List.length (slice_to max_words_default (split (first_clause message))) <= 8.
Proof.
  rewrite short_reflection_cases. cbv zeta.
  destruct (Nat.ltb_spec (len (strip message)) 10) as [|Hlen]; [discriminate|].
  destruct (Nat.ltb_spec
              (List.length (slice_to max_words_default
                              (split (first_clause message)))) 2) as [|Hw];
    [discriminate|].
  intros [= <-]. unfold slice_to in *. rewrite length_firstn in *.
  unfold max_words_default in *. repeat split; lia.
Qed.

Lemma join_two_truthy (sep : str) (ws : list str) :
  2 <= List.length ws -> truthy sep = true ->
  truthy (lower (join sep ws)) = true.
Proof.
  destruct ws as [|a [|b ws]]; simpl; try lia. intros _ Hsep.
  destruct a; simpl; [|reflexivity].
  destruct sep; [discriminate|reflexivity].
Qed.

(** The phrase [_short_reflection] extracts is never empty. *)
Lemma short_reflection_truthy (message r : str) :
  _short_reflection message max_words_default = Some r -> truthy r = true.
Proof.
  rewrite short_reflection_cases. cbv zeta.
  destruct (len (strip message) <? 10)%nat; [discriminate|].
  destruct (Nat.ltb_spec
              (List.length (slice_to max_words_default
                              (split (first_clause message)))) 2) as [|Hw];
    [discriminate|].
  intros [= <-]. apply join_two_truthy; [exact Hw | reflexivity].
Qed.

(** The shape of every fallback response: a template of the topic's
    pool, alone after one draw when no phrase can be extracted and
    after two when the second draw is not below one half, and behind a
    formatted prefix after three draws otherwise; always with the
    suggestions of the topic. *)
Lemma fallback_response_shape (w : world) (message : str) (s : effects) :
  let topic := _detect_topic message in
  exists base, In base (pool_of topic) /\
    match _short_reflection message max_words_default with
    | None =>
      _fallback_response w message s
      = (Ok (base, suggestions_of topic), drawn 1 s)
    | Some r =>
      if lt_half (entropy w (S (draws s)) mod 2 ^ 53)
      then exists tmpl, In tmpl REFLECTION_PREFIXES /\
           _fallback_response w message s
           = (Ok ((format tmpl r ++ base)%list, suggestions_of topic),
              drawn 3 s)
      else _fallback_response w message s
           = (Ok (base, suggestions_of topic), drawn 2 s)
    end.
Proof.
  intros topic.
  destruct (topic_tables (detect_topic_in_TOPICS message))
    as (pool & sugg & Hpool & Hne & Hsugg & _).
  fold topic in Hpool, Hsugg.
  destruct (random_choice_ok w s Hne) as (base & Hbase & Hchoice).
  exists base. unfold pool_of, suggestions_of, dict_get_default.
  rewrite Hpool, Hsugg. split; [exact Hbase|].
  assert (_fallback_response w message s
          = match _short_reflection message max_words_default with
            | Some r =>
              if truthy r then
                if lt_half (entropy w (S (draws s)) mod 2 ^ 53) then
                  match nth_error REFLECTION_PREFIXES
                          (N.to_nat (entropy w (S (S (draws s))))
                           mod List.length REFLECTION_PREFIXES) with
                  | Some tmpl =>
                    (Ok ((format tmpl r ++ base)%list, sugg), drawn 3 s)
                  | None => (Raise IndexError, drawn 3 s)
                  end
                else (Ok (base, sugg), drawn 2 s)
              else (Ok (base, sugg), drawn 1 s)
            | None => (Ok (base, sugg), drawn 1 s)
            end) as Hrun.
  { unfold _fallback_response. fold topic.
    unfold dict_item, dict_get_default. rewrite Hpool, Hsugg.
    replace (dict_get EMPATHETIC_RESPONSES (lit "general"))
      with (Some (pool_of (lit "general"))) by (vm_compute; reflexivity).
    replace (dict_get suggestions_map (lit "general"))
      with (Some (suggestions_of (lit "general"))) by (vm_compute; reflexivity).
    unfold bind at 1. unfold lift at 1.
    unfold bind at 1. rewrite Hchoice.
    destruct (_short_reflection message max_words_default) as [r|];
      [|reflexivity].
    destruct (truthy r); [|reflexivity].
    destruct s as [n cs].
    cbv [bind random_random random_choice next_random lift ret raise drawn
         draws calls Nat.add].
    destruct (lt_half (entropy w (S n) mod 2 ^ 53)); [|reflexivity].
    destruct (nth_error REFLECTION_PREFIXES
                (N.to_nat (entropy w (S (S n)))
                 mod List.length REFLECTION_PREFIXES)); reflexivity. }
  destruct (_short_reflection message max_words_default) as [r|] eqn:Hr;
    [|exact Hrun].
  rewrite (short_reflection_truthy _ Hr) in Hrun.
  destruct (lt_half (entropy w (S (draws s)) mod 2 ^ 53)); [|exact Hrun].
  destruct (nth_error REFLECTION_PREFIXES
              (N.to_nat (entropy w (S (S (draws s))))
               mod List.length REFLECTION_PREFIXES)) as [tmpl|] eqn:E.
  - exists tmpl; split; [eapply nth_error_In; eauto | exact Hrun].
  - exfalso. apply nth_error_None in E.
    pose proof (Nat.mod_upper_bound
                  (N.to_nat (entropy w (S (S (draws s)))))
                  (List.length REFLECTION_PREFIXES) ltac:(discriminate)).
    lia.
Qed.

Lemma suggestions_of_length (message : str) :
  List.length (suggestions_of (_detect_topic message)) = 3.
Proof.
  destruct (topic_tables (detect_topic_in_TOPICS message))
    as (pool & sugg & _ & _ & Hsugg & Hlen).
  unfold suggestions_of, dict_get_default. now rewrite Hsugg.
Qed.

Lemma completion_total (w : world) (p : provider) (message : str) (s : effects) :
  exists r, completion w p message s
            = (Ok r, {| draws := draws s; calls := (calls s ++ [p])%list |}).
Proof.
  unfold completion, bind, http_post.
  destruct (http w p message) as [|status [content|]];
    try (eexists; reflexivity).
  destruct (status =? 200)%Z; eexists; reflexivity.
Qed.

(** The provider attempts never raise. *)
Lemma get_ai_response_total (cfg : config) (w : world) (message : str)
  (s : effects) :
  exists r s', get_ai_response cfg w message s = (Ok r, s').
Proof.
  assert (forall s0, exists r s', _groq_response cfg w message s0 = (Ok r, s'))
    as Hgroq.
  { intros s0. unfold _groq_response.
    destruct (negb (truthy (GROQ_API_KEY cfg))); [eexists _, _; reflexivity|].
    destruct (completion_total w Groq message s0) as [r ->]. eauto. }
  unfold get_ai_response, _openai_response, bind.
  destruct (negb (truthy (OPENAI_API_KEY cfg))).
  - simpl. apply Hgroq.
  - destruct (completion_total w OpenAI message s) as [r ->].
    destruct (truthy_opt r); [eexists _, _; reflexivity | apply Hgroq].
Qed.

(** Without credentials no provider is attempted. *)
Lemma get_ai_response_no_credentials (w : world) (message : str) (s : effects) :
  get_ai_response no_credentials w message s = (Ok None, s).
Proof. reflexivity. Qed.

(** Each reflection template wraps the phrase between a fixed opening
    and a dash. *)
Lemma format_reflection_prefix (tmpl : str) :
  In tmpl REFLECTION_PREFIXES ->
  exists opening,
    In opening (map lit ["You shared that "; "It sounds like "; "Hearing that "])
    /\ forall r, format tmpl r = (opening ++ r ++ lit " — ")%list.
Proof.
  intros [<-|[<-|[<-|[]]]].
  - exists (lit "You shared that "). split; [simpl; tauto|]. intros r. reflexivity.
  - exists (lit "It sounds like "). split; [simpl; tauto|]. intros r. reflexivity.
  - exists (lit "Hearing that "). split; [simpl; tauto|]. intros r. reflexivity.
Qed.

(** [_fallback_response] never raises. *)
Lemma fallback_response_total (w : world) (message : str) (s : effects) :
  exists p s', _fallback_response w message s = (Ok p, s').
Proof.
  destruct (fallback_response_shape w message s) as (base & _ & H).
  destruct (_short_reflection message max_words_default).
  - destruct (lt_half _).
    + destruct H as (tmpl & _ & ->). eauto.
    + rewrite H. eauto.
  - rewrite H. eauto.
Qed.

(** [get_chat_response] never raises: the user always gets a text. *)
Lemma get_chat_response_total
  (cfg : config) (w : world) (message : str) (s : effects) :
  exists p s', get_chat_response cfg w message s = (Ok p, s').
Proof.
  unfold get_chat_response.
  destruct (_is_crisis message); [eexists _, _; reflexivity|].
  unfold bind.
  destruct (get_ai_response_total cfg w message s) as (r & s1 & ->).
  destruct r as [text|]; [|apply fallback_response_total].
  destruct (truthy text); [|apply fallback_response_total].
  eexists _, _; reflexivity.
Qed.

(** *** The claims about the response engine *)



(** C10: whatever the message, the credentials, the providers' answers
    and the random draws, [get_chat_response] returns, and returns
    exactly three suggestions. *)
Theorem get_chat_response_three_suggestions
  (cfg : config) (w : world) (message : str) (s : effects) :
  exists response suggestions s',
    get_chat_response cfg w message s = (Ok (response, suggestions), s')
    /\ List.length suggestions = 3.
Proof.
  assert (forall s0, exists response suggestions s',
             _fallback_response w message s0 = (Ok (response, suggestions), s')
             /\ List.length suggestions = 3) as Hfb.
  { intros s0.
    destruct (fallback_response_shape w message s0) as (base & _ & H).
    pose proof (suggestions_of_length message) as Hlen.
    destruct (_short_reflection message max_words_default).
    - destruct (lt_half _).
      + destruct H as (tmpl & _ & ->). eauto 6.
      + rewrite H. eauto 6.
    - rewrite H. eauto 6. }
  unfold get_chat_response.
  destruct (_is_crisis message).
  - eexists _, _, _; split; reflexivity.
  - unfold bind.
    destruct (get_ai_response_total cfg w message s) as (r & s1 & ->).
    destruct r as [text|]; [|apply Hfb].
    destruct (truthy text); [|apply Hfb].
    eexists _, _, _; split; reflexivity.
Qed.

(** C2, as stated, fails: when the second draw is below one half the
    response to "I feel so anxious today" is a template of the anxiety
    pool behind a reflection, which is no member of the pool. *)
Lemma anxious_message_reflected_reply_outside_pool :
  get_chat_response no_credentials Sample.silent
    (lit "I feel so anxious today") start
  = (Ok (lit "You shared that i feel so anxious today — I understand how overwhelming anxiety can feel. Your feelings are valid. Have you tried grounding techniques like the 5-4-3-2-1 method? Notice 5 things you see, 4 you hear, 3 you touch, 2 you smell, 1 you taste.",
         map lit ["Breathing exercises"; "Grounding techniques";
                  "When to see a professional"]),
     drawn 3 start)
  /\ ~ In (lit "You shared that i feel so anxious today — I understand how overwhelming anxiety can feel. Your feelings are valid. Have you tried grounding techniques like the 5-4-3-2-1 method? Notice 5 things you see, 4 you hear, 3 you touch, 2 you smell, 1 you taste.")
          (pool_of (lit "anxiety")).
Proof.
  split; [vm_compute; reflexivity|].
  vm_compute. intros [H|[H|[H|[H|[]]]]]; discriminate H.
Qed.

(** C2, amended: without credentials, the response to
    "I feel so anxious today" is a template of the anxiety pool, either
    alone or behind one of the three reflection prefixes formatted with
    "i feel so anxious today", and it comes with the list of the three
    anxiety suggestions, whatever the random draws. *)
Theorem anxious_message_fallback (w : world) (s : effects) :
  exists base response s',
    In base (pool_of (lit "anxiety"))
    /\ get_chat_response no_credentials w (lit "I feel so anxious today") s
       = (Ok (response,
              map lit ["Breathing exercises"; "Grounding techniques";
                       "When to see a professional"]),
          s')
    /\ (response = base
        \/ exists tmpl, In tmpl REFLECTION_PREFIXES
           /\ response
              = (format tmpl (lit "i feel so anxious today") ++ base)%list).
Proof.
  pose proof (fallback_response_shape w (lit "I feel so anxious today") s)
    as (base & Hbase & H).
  replace (_detect_topic (lit "I feel so anxious today"))
    with (lit "anxiety") in * by (vm_compute; reflexivity).
  replace (_short_reflection (lit "I feel so anxious today") max_words_default)
    with (Some (lit "i feel so anxious today")) in H by (vm_compute; reflexivity).
  replace (suggestions_of (lit "anxiety"))
    with (map lit ["Breathing exercises"; "Grounding techniques";
                   "When to see a professional"]) in H
    by (vm_compute; reflexivity).
  assert (forall s0, get_chat_response no_credentials w
                       (lit "I feel so anxious today") s0
                     = _fallback_response w (lit "I feel so anxious today") s0)
    as Hget.
  { intros s0. unfold get_chat_response.
    replace (_is_crisis (lit "I feel so anxious today")) with false
      by (vm_compute; reflexivity).
    unfold bind. rewrite get_ai_response_no_credentials. reflexivity. }
  rewrite Hget. exists base.
  destruct (lt_half _).
  - destruct H as (tmpl & Htmpl & ->).
    eexists _, _. split; [exact Hbase|]. split; [reflexivity|].
    right. exists tmpl. split; [exact Htmpl | reflexivity].
  - rewrite H. eexists _, _. split; [exact Hbase|]. split; [reflexivity|].
    left. reflexivity.
Qed.

(** C4, as stated, fails in its example: a message with "tired" that
    also holds a depression keyword is classified as depression. *)
Lemma tired_and_sad_is_depression :
  contains (lit "tired") (lower (lit "So tired and sad")) = true
  /\ _detect_topic (lit "So tired and sad") = lit "depression"
  /\ _detect_topic (lit "So tired and sad") <> lit "stress".
Proof.
  split; [vm_compute; reflexivity|].
  split; [vm_compute; reflexivity|].
  differ.
Qed.

(** C4, amended: [_detect_topic] classifies by ordered keyword
    matching on the lower-cased message, in the order depression,
    anxiety, stress, loneliness, sleep, anger; the first topic with a
    keyword in the message wins and "general" is the default, so the
    result is one of the seven topics.  A message containing "tired" is
    never classified as sleep: it is classified as depression, anxiety
    or stress, and as stress if no depression or anxiety keyword
    occurs in it. *)
Theorem detect_topic_ordered_first_match (message : str) :
  map fst TOPIC_KEYWORDS
  = map lit ["depression"; "anxiety"; "stress"; "loneliness"; "sleep"; "anger"]
  /\ _detect_topic message
     = first_matching_topic TOPIC_KEYWORDS (lower message)
  /\ In (_detect_topic message) TOPICS
  /\ (substring (lit "tired") (lower message) ->
      _detect_topic message <> lit "sleep"
      /\ In (_detect_topic message)
            (map lit ["depression"; "anxiety"; "stress"])
      /\ (first_matching_topic (firstn 2 TOPIC_KEYWORDS) (lower message)
          = lit "general" ->
          _detect_topic message = lit "stress")).
Proof.
  split; [reflexivity|].
  split; [apply detect_topic_first_match|].
  split; [apply detect_topic_in_TOPICS|].
  intros Htired.
  assert (any_in (map lit ["stress"; "stressed"; "overwhelm"; "pressure";
                           "busy"; "tired"]) (lower message) = true) as Hstress.
  { apply any_in_iff. exists (lit "tired"). split; [simpl; tauto | exact Htired]. }
  rewrite detect_topic_first_match.
  cbv [TOPIC_KEYWORDS first_matching_topic firstn].
  rewrite Hstress. clear Hstress.
  destruct (any_in _ (lower message)); [|destruct (any_in _ (lower message))].
  - split; [differ|].
    split; [simpl; tauto|]. differ.
  - split; [differ|].
    split; [simpl; tauto|]. differ.
  - split; [differ|].
    split; [simpl; tauto | reflexivity].
Qed.

Lemma detect_topic_ordered_first_match_witness :
  _detect_topic (lit "I am TIRED of this") = lit "stress".
Proof.
  apply (detect_topic_ordered_first_match (lit "I am TIRED of this")).
  - exists (lit "i am "), (lit " of this"). vm_compute. reflexivity.
  - vm_compute. reflexivity.
Defined.

(** C5: a fallback response is a template of the topic's pool, and a
    reflection is put before it only when the stripped message has at
    least 10 characters, its first clause has at least 2 words, and
    the draw of [random.random()] is below one half, which holds for
    [2^52] of its [2^53] equally likely values; the phrase reflected is
    then made of at most 8 words, the first of the first clause.  In
    particular, when the stripped message is shorter than 10
    characters or its first clause has fewer than 2 words, the response
    is the bare template, after the single draw that chose it. *)
Theorem reflection_only_when_phrase_and_coin
  (w : world) (message : str) (s : effects) :
  let topic := _detect_topic message in
  let words := slice_to max_words_default (split (first_clause message)) in
  let coin := (entropy w (S (draws s)) mod 2 ^ 53)%N in
  (exists base, In base (pool_of topic) /\
     ((_fallback_response w message s
       = (Ok (base, suggestions_of topic), drawn 1 s)
       /\ (len (strip message) < 10
           \/ List.length (split (first_clause message)) < 2))
      \/
      (_fallback_response w message s
       = (Ok (base, suggestions_of topic), drawn 2 s)
       /\ 10 <= len (strip message)
       /\ 2 <= List.length (split (first_clause message))
       /\ (2 ^ 52 <= coin)%N)
      \/
      (exists tmpl, In tmpl REFLECTION_PREFIXES
       /\ _fallback_response w message s
          = (Ok ((format tmpl (lower (join (lit " ") words)) ++ base)%list,
                 suggestions_of topic),
             drawn 3 s)
       /\ 10 <= len (strip message)
       /\ 2 <= List.length (split (first_clause message))
       /\ List.length words <= 8
       /\ (coin < 2 ^ 52)%N)))
  /\ (len (strip message) < 10
      \/ List.length (split (first_clause message)) < 2 ->
      exists base, In base (pool_of topic)
        /\ _fallback_response w message s
           = (Ok (base, suggestions_of topic), drawn 1 s))
  /\ (coin < 2 ^ 53)%N /\ (2 * 2 ^ 52 = 2 ^ 53)%N.
Proof.
  intros topic words coin.
  pose proof (fallback_response_shape w message s) as (base & Hbase & H).
  fold topic in Hbase, H. fold coin in H.
  split; [|split].
  - exists base. split; [exact Hbase|].
    destruct (_short_reflection message max_words_default) as [r|] eqn:Hr.
    + apply short_reflection_some in Hr as (Hlen & Hw & -> & Hw8).
      fold words in H, Hw8. unfold lt_half in H.
      destruct (N.ltb_spec coin (2 ^ 52)) as [Hc|Hc].
      * right; right. destruct H as (tmpl & Htmpl & H).
        exists tmpl. repeat split; assumption.
      * right; left. repeat split; assumption.
    + left. split; [exact H|].
      rewrite short_reflection_cases in Hr. cbv zeta in Hr.
      destruct (Nat.ltb_spec (len (strip message)) 10) as [|Hlen]; [now left|].
      destruct (Nat.ltb_spec
                  (List.length (slice_to max_words_default
                                  (split (first_clause message)))) 2)
        as [Hw|]; [|discriminate].
      right. unfold slice_to, max_words_default in Hw.
      rewrite length_firstn in Hw. lia.
  - intros Hshort. exists base. split; [exact Hbase|].
    now rewrite (short_reflection_none _ Hshort) in H.
  - split; [|reflexivity]. apply N.mod_upper_bound. discriminate.
Qed.

Lemma reflection_only_when_phrase_and_coin_witness :
  exists base, In base (pool_of (lit "general"))
    /\ _fallback_response Sample.silent (lit "  hello!  ") start
       = (Ok (base, suggestions_of (lit "general")), drawn 1 start).
Proof.
  apply (reflection_only_when_phrase_and_coin
           Sample.silent (lit "  hello!  ") start).
  left. vm_compute. lia.
Defined.

End ChatFacts.

(** ** Credentials *)

Module AuthFacts.

Import PyFacts Auth.
Local Open Scope string_scope.

Lemma firstn_length_app {A} (k r : list A) :
  firstn (List.length k) (k ++ r) = k.
Proof. induction k as [|a k IH]; simpl; [reflexivity | now rewrite IH]. Qed.

Lemma skipn_length_app {A} (k r : list A) :
  skipn (List.length k) (k ++ r) = r.
Proof. induction k as [|a k IH]; simpl; [reflexivity | exact IH]. Qed.

(** The stand-in satisfies the law asked of the token library. *)
Lemma plain_verify_sign (c : Jose.claims) (k : str) :
  Plain.verify (Plain.sign c k) k = Some c.
Proof.
  unfold Plain.verify, Plain.sign.
  rewrite N.eqb_refl, Nat2N.id, firstn_length_app, skipn_length_app, eqb_refl.
  destruct c as [[u|] [z|]]; simpl; try reflexivity;
    destruct (Z.ltb_spec z 0); simpl; rewrite N2Z.inj_abs_N;
      repeat f_equal; lia.
Qed.

Lemma plain_laws : Jose.Laws Plain.jose.
Proof. constructor. exact plain_verify_sign. Qed.

(** The length of the encoding is the sum of the widths. *)
Lemma encode_utf8_length (p : str) (bs : list N) :
  encode_utf8 p = Ok bs -> List.length bs = list_sum (map utf8_width p).
Proof.
  revert bs; induction p as [|c p IH]; simpl; intros bs H.
  - now injection H as <-.
  - destruct (is_surrogate c); [discriminate|].
    destruct (encode_utf8 p) as [bs'|]; [|discriminate].
    injection H as <-. rewrite length_app, (IH _ eq_refl).
    f_equal. unfold utf8_bytes, utf8_width.
    repeat match goal with |- context [if ?b then _ else _] => destruct b end;
      reflexivity.
Qed.

Section Tokens.
Context {jwt : Jose.Lib} {laws : Jose.Laws jwt}.


End Tokens.


Section Passwords.
Context {pwd_context : Passlib.CryptContext}.


End Passwords.


End AuthFacts.

(** ** The handlers and the store *)

Module MainFacts.

Import PyFacts Auth Models Database ChatService Main.
Local Open Scope string_scope.

Lemma fold_max_ge (seq : Z) (ids : list Z) (i : Z) :
  In i ids -> (i <= fold_right Z.max seq ids)%Z.
Proof.
  induction ids as [|j ids IH]; simpl; [tauto|].
  intros [->|H]; [lia | specialize (IH H); lia].
Qed.

(** An [AUTOINCREMENT] key is new. *)
Lemma next_rowid_fresh (seq : Z) (ids : list Z) : ~ In (next_rowid seq ids) ids.
Proof.
  intros H. apply (fold_max_ge seq) in H. unfold next_rowid in H. lia.
Qed.

Lemma select_user_id_some (username : str) (d : db) (uid : Z) :
  select_user_id username d = Some uid ->
  exists u, In u (users d) /\ u_username u = username /\ u_id u = uid.
Proof.
  unfold select_user_id.
  destruct (filter _ (users d)) as [|u rest] eqn:E; [discriminate|].
  intros [= <-]. exists u.
  assert (In u (filter (fun u => eqb (u_username u) username) (users d)))
    as Hin by (rewrite E; left; reflexivity).
  apply filter_In in Hin as [Hin Heq]. apply eqb_eq in Heq. auto.
Qed.

Lemma select_user_id_none (username : str) (d : db) :
  select_user_id username d = None ->
  forall u, In u (users d) -> u_username u <> username.
Proof.
  unfold select_user_id.
  destruct (filter _ (users d)) as [|u0 rest] eqn:E; [|discriminate].
  intros _ u Hin Heq.
  assert (In u (filter (fun u => eqb (u_username u) username) (users d)))
    as H by (apply filter_In; split; [exact Hin | now apply eqb_eq]).
  rewrite E in H. exact H.
Qed.

Lemma insert_by_time_In (m x : message_row) (l : list message_row) :
  In x (insert_by_time m l) <-> x = m \/ In x l.
Proof.
  induction l as [|y l IH]; simpl; [intuition|].
  destruct (m_created_at m <=? m_created_at y)%Z; simpl; rewrite ?IH; intuition.
Qed.

(** Ordering keeps the rows. *)
Lemma order_by_created_at_In (x : message_row) (l : list message_row) :
  In x (order_by_created_at l) <-> In x l.
Proof.
  induction l as [|y l IH]; simpl; [tauto|].
  rewrite insert_by_time_In, IH. intuition.
Qed.

(** The rows the join selects. *)
Lemma select_session_messages_In
  (session_id : Z) (username : str) (d : db) (m : message_row) :
  In m (select_session_messages session_id username d) <->
  In m (messages d) /\
  exists s u, In s (chat_sessions d) /\ In u (users d)
    /\ m_session_id m = s_id s /\ s_user_id s = u_id u
    /\ s_id s = session_id /\ u_username u = username.
Proof.
  unfold select_session_messages. rewrite order_by_created_at_In, in_flat_map.
  split.
  - intros (m0 & Hm0 & H). apply in_flat_map in H as (s & Hs & H).
    apply in_flat_map in H as (u & Hu & H).
    destruct (_ && _) eqn:E in H; [|destruct H].
    destruct H as [<-|[]].
    repeat (apply andb_true_iff in E as [E ?]).
    split; [exact Hm0|]. exists s, u.
    repeat split; try assumption;
      try (now apply Z.eqb_eq); now apply eqb_eq.
  - intros (Hm & s & u & Hs & Hu & H1 & H2 & H3 & H4).
    exists m. split; [exact Hm|].
    apply in_flat_map. exists s. split; [exact Hs|].
    apply in_flat_map. exists u. split; [exact Hu|].
    rewrite H1, H2, H3, !Z.eqb_refl.
    rewrite (proj2 (eqb_eq _ _) H4). left; reflexivity.
Qed.

Lemma NoDup_map_inj {A B} (f : A -> B) (l : list A) (a b : A) :
  NoDup (map f l) -> In a l -> In b l -> f a = f b -> a = b.
Proof.
  induction l as [|x l IH]; simpl; [tauto|].
  intros Hnd Ha Hb Hf. inversion Hnd as [|? ? Hx Hnd']; subst.
  destruct Ha as [->|Ha], Hb as [->|Hb]; auto.
  - exfalso. apply Hx. rewrite Hf. now apply in_map.
  - exfalso. apply Hx. rewrite <- Hf. now apply in_map.
Qed.

Example own_session_is_listed :
  @get_session_messages Plain.jose 100 1
    (Sample.bearer (Sample.token_of (lit "alice"))) Sample.two_users
  = (Ok [ {| v_role := lit "user"; v_content := lit "I feel low";
             v_created_at := 30 |};
          {| v_role := lit "assistant"; v_content := lit "I hear you.";
             v_created_at := 30 |} ],
     Sample.two_users).
Proof. run. Qed.

Example no_credential_is_unauthorized :
  @require_auth Plain.jose 100 {| headers := []; cookies := [] |}
  = Raise (HTTPException 401 (lit "Not authenticated")).
Proof. run. Qed.

Lemma two_users_schema_ok : schema_ok Sample.two_users.
Proof.
  constructor; simpl;
    repeat (constructor; [simpl; intros H;
                          repeat (destruct H as [H|H]; [vm_compute in H; discriminate H|]);
                          exact H |]);
    constructor.
Qed.

Section Handlers.
Context {jwt : Jose.Lib}.
Variable cfg : config.
Variable w : world.
Variable now : Z.

(** C7, amended: an authenticated chat turn succeeds, and when the
    authenticated user name has a row in [users] it adds one row to
    [chat_sessions], owned by that user and with a new id, then two
    rows to [messages] attached to it, the user's message first and
    the response returned second, and leaves every other row as it
    was; when the name has no row the store is left as it was. *)
Theorem chat_saves_one_exchange
  (message : ChatMessage) (request : Request) (d : db) (s : effects)
  (username : str) :
  require_auth now request = Ok username ->
  exists r d' s',
    chat cfg w now message request d s = (Ok r, d', s') /\
    match select_user_id username d with
    | None => d' = d
    | Some user_id =>
      (exists u, In u (users d) /\ u_username u = username /\ u_id u = user_id)
      /\ exists sid mid1 mid2,
          ~ In sid (map s_id (chat_sessions d))
          /\ ~ In mid1 (map m_id (messages d))
          /\ ~ In mid2 (map m_id (messages d))
          /\ mid1 <> mid2
          /\ users d' = users d
          /\ chat_sessions d'
             = (chat_sessions d
                ++ [{| s_id := sid; s_user_id := user_id;
                       s_created_at := now |}])%list
          /\ messages d'
             = (messages d
                ++ [{| m_id := mid1; m_session_id := sid;
                       m_role := lit "user";
                       m_content := Models.message message;
                       m_created_at := now |};
                    {| m_id := mid2; m_session_id := sid;
                       m_role := lit "assistant";
                       m_content := response r;
                       m_created_at := now |}])%list
    end.
Proof.
  intros Hauth. unfold chat. rewrite Hauth.
  destruct (ChatFacts.get_chat_response_total cfg w (Models.message message) s)
    as ([resp sugg] & s1 & ->).
  eexists _, _, _. split; [reflexivity|]. unfold save_exchange.
  destruct (select_user_id username d) as [user_id|] eqn:Huser;
    [|reflexivity].
  split; [now apply select_user_id_some|].
  unfold insert_chat_session, insert_message; simpl.
  set (sid := next_rowid (seq_chat_sessions d) (map s_id (chat_sessions d))).
  set (mid1 := next_rowid (seq_messages d) (map m_id (messages d))).
  set (row1 := {| m_id := mid1; m_session_id := sid; m_role := lit "user";
                  m_content := Models.message message; m_created_at := now |}).
  set (mid2 := next_rowid mid1 (map m_id (messages d ++ [row1]))).
  pose proof (next_rowid_fresh mid1 (map m_id (messages d ++ [row1])))
    as Hfresh.
  fold mid2 in Hfresh. rewrite map_app, in_app_iff in Hfresh.
  exists sid, mid1, mid2.
  split; [apply next_rowid_fresh|].
  split; [apply next_rowid_fresh|].
  split; [intros Hin; apply Hfresh; left; exact Hin|].
  split; [intros Heq; apply Hfresh; right; left; exact Heq|].
  split; [reflexivity|].
  split; [reflexivity|].
  rewrite <- app_assoc. reflexivity.
Qed.

(** C8: for an authenticated user, the messages [get_session_messages]
    returns are rows of [messages] attached to the session asked for,
    and that session belongs to the requesting user; under the key
    constraints of the schema, asking for a session owned by another
    user raises the not-found error 404; the store is never changed. *)
Theorem session_messages_scoped_to_owner
  (session_id : Z) (request : Request) (d : db) (username : str) :
  require_auth now request = Ok username ->
  (forall rows d',
      get_session_messages now session_id request d = (Ok rows, d') ->
      d' = d /\
      forall v, In v rows ->
        exists m s u,
          In m (messages d) /\ In s (chat_sessions d) /\ In u (users d)
          /\ v = view m /\ m_session_id m = s_id s /\ s_id s = session_id
          /\ s_user_id s = u_id u /\ u_username u = username)
  /\ (schema_ok d ->
      forall s owner,
        In s (chat_sessions d) -> s_id s = session_id ->
        In owner (users d) -> u_id owner = s_user_id s ->
        u_username owner <> username ->
        get_session_messages now session_id request d
        = (Raise (HTTPException 404 (lit "Session not found")), d))
  /\ snd (get_session_messages now session_id request d) = d.
Proof.
  intros Hauth. unfold get_session_messages. rewrite Hauth.
  split; [|split].
  - intros rows d' H.
    destruct (select_session_messages session_id username d) as [|m0 l] eqn:E;
      [discriminate|].
    injection H as <- <-. split; [reflexivity|].
    intros v Hv. change (In v (map view (m0 :: l))) in Hv.
    apply in_map_iff in Hv as (m & <- & Hm).
    rewrite <- E in Hm.
    apply select_session_messages_In
      in Hm as (Hm & s & u & Hs & Hu & H1 & H2 & H3 & H4).
    exists m, s, u. repeat split; assumption.
  - intros Hok s owner Hs Hsid Howner Hid Hname.
    destruct (select_session_messages session_id username d) as [|m0 l] eqn:E;
      [reflexivity|].
    exfalso.
    assert (In m0 (select_session_messages session_id username d)) as Hm
        by (rewrite E; left; reflexivity).
    apply select_session_messages_In
      in Hm as (_ & s1 & u & Hs1 & Hu & _ & H2 & H3 & H4).
    assert (s1 = s) as ->
        by (eapply NoDup_map_inj;
            [apply (chat_sessions_pk Hok) | | | congruence]; assumption).
    assert (u = owner) as ->
        by (eapply NoDup_map_inj;
            [apply (users_pk Hok) | | | congruence]; assumption).
    contradiction.
  - destruct (select_session_messages session_id username d); reflexivity.
Qed.

(** C9: when the request carries an [Authorization] header that
    starts with "Bearer ", the user is the one the token after the
    prefix decodes to and the cookies play no part; if that token
    decodes to no user, [require_auth] raises 401 whatever the cookie
    [sage_token] holds. *)
Theorem bearer_header_preempts_cookie (request : Request) (auth : str) :
  headers_get (headers request) (lit "Authorization") = Some auth ->
  startswith auth (lit "Bearer ") = true ->
  get_current_user now request = decode_token now (slice_from 7 auth)
  /\ (forall other_cookies,
        get_current_user now
          {| headers := headers request; cookies := other_cookies |}
        = get_current_user now request)
  /\ (decode_token now (slice_from 7 auth) = Ok None ->
      require_auth now request
      = Raise (HTTPException 401 (lit "Not authenticated"))).
Proof.
  intros Hhdr Hpre.
  assert (truthy auth = true) as Htruthy
      by (destruct auth; [discriminate Hpre | reflexivity]).
  assert (forall cs,
             get_current_user now {| headers := headers request; cookies := cs |}
             = decode_token now (slice_from 7 auth)) as Hget.
  { intros cs. unfold get_current_user. simpl headers.
    now rewrite Hhdr, Htruthy, Hpre. }
  assert (get_current_user now request = decode_token now (slice_from 7 auth))
    as Hreq by (destruct request; apply Hget).
  split; [exact Hreq|]. split.
  - intros cs. now rewrite Hget, Hreq.
  - intros Hnone. unfold require_auth. now rewrite Hreq, Hnone.
Qed.

End Handlers.

(** C7, as stated, fails: a turn authenticated by a valid token whose
    user name has no row in [users] succeeds and stores nothing. *)
Lemma chat_of_unknown_user_saves_nothing :
  @chat Plain.jose no_credentials Sample.silent 100
    {| Models.message := lit "hello" |}
    (Sample.bearer (Sample.token_of (lit "ghost")))
    Sample.two_users start
  = (Ok {| response := lit "I'm here to listen. Whatever you're going through, your feelings matter. Would you like to tell me more about what's on your mind?";
           suggestions := map lit ["Tell me more"; "I need resources";
                                   "Crisis support"] |},
     Sample.two_users, drawn 1 start).
Proof. vm_compute. reflexivity. Qed.

Lemma chat_saves_one_exchange_witness :
  exists r d' s',
    @chat Plain.jose no_credentials Sample.silent 100
      {| Models.message := lit "hello" |}
      (Sample.bearer (Sample.token_of (lit "alice")))
      Sample.two_users start
    = (Ok r, d', s')
    /\ users d' = users Sample.two_users
    /\ List.length (chat_sessions d') = 3
    /\ List.length (messages d') = 6.
Proof.
  destruct (@chat_saves_one_exchange Plain.jose no_credentials Sample.silent
              100 {| Models.message := lit "hello" |}
              (Sample.bearer (Sample.token_of (lit "alice")))
              Sample.two_users start (lit "alice"))
    as (r & d' & s' & Hrun & H).
  - vm_compute. reflexivity.
  - exists r, d', s'. split; [exact Hrun|].
    change (select_user_id (lit "alice") Sample.two_users) with (Some 1%Z) in H.
    destruct H as (_ & sid & mid1 & mid2 & _ & _ & _ & _ & Hus & Hss & Hms).
    rewrite Hus, Hss, Hms, !length_app. repeat split.
Defined.

Lemma session_messages_scoped_to_owner_witness :
  @get_session_messages Plain.jose 100 2
    (Sample.bearer (Sample.token_of (lit "alice"))) Sample.two_users
  = (Raise (HTTPException 404 (lit "Session not found")), Sample.two_users).
Proof.
  refine (proj1 (proj2
    (@session_messages_scoped_to_owner Plain.jose 100 2
       (Sample.bearer (Sample.token_of (lit "alice"))) Sample.two_users
       (lit "alice") _)) two_users_schema_ok
    (nth 1 (chat_sessions Sample.two_users)
       {| s_id := 0; s_user_id := 0; s_created_at := 0 |})
    (nth 1 (users Sample.two_users)
       {| u_id := 0; u_username := []; u_email := [];
          u_password_hash := []; u_created_at := 0 |})
    _ _ _ _ _).
  - vm_compute. reflexivity.
  - simpl. tauto.
  - reflexivity.
  - simpl. tauto.
  - reflexivity.
  - intros H. vm_compute in H. discriminate H.
Defined.

Lemma bearer_header_preempts_cookie_witness :
  @user_of_cookie Plain.jose 100 Sample.bad_bearer_good_cookie
  = Ok (Some (lit "alice"))
  /\ @require_auth Plain.jose 100 Sample.bad_bearer_good_cookie
     = Raise (HTTPException 401 (lit "Not authenticated")).
Proof.
  split; [vm_compute; reflexivity|].
  apply (@bearer_header_preempts_cookie Plain.jose 100
           Sample.bad_bearer_good_cookie (lit "Bearer not-a-token")).
  - vm_compute. reflexivity.
  - vm_compute. reflexivity.
  - vm_compute. reflexivity.
Defined.

End MainFacts.

(** ** More on the response engine *)

Module EngineFacts.

Import PyFacts ChatService ChatFacts.
Local Open Scope string_scope.

Lemma truthy_app_r (a b : str) : truthy b = true -> truthy (a ++ b)%list = true.
Proof. destruct a; simpl; auto. Qed.

(** No template and no suggestion is the empty string. *)
Lemma topic_texts_truthy (topic : str) :
  In topic TOPICS ->
  Forall (fun t => truthy t = true) (pool_of topic)
  /\ Forall (fun t => truthy t = true) (suggestions_of topic).
Proof.
  intros Hin.
  assert (forallb (fun t => forallb truthy (pool_of t)
                            && forallb truthy (suggestions_of t)) TOPICS
          = true) as Hall by run.
  rewrite forallb_forall in Hall. specialize (Hall _ Hin).
  apply andb_true_iff in Hall as [Hp Hs].
  rewrite forallb_forall in Hp, Hs.
  split; apply Forall_forall; auto.
Qed.







(** X3: the text [get_chat_response] returns is never the empty
    string, and neither is any of the suggestions that come with it. *)
Theorem get_chat_response_never_empty
  (cfg : config) (w : world) (message : str) (s : effects) :
  exists response suggestions s',
    get_chat_response cfg w message s = (Ok (response, suggestions), s')
    /\ truthy response = true
    /\ Forall (fun t => truthy t = true) suggestions.
Proof.
  assert (forall s0, exists response suggestions s',
             _fallback_response w message s0 = (Ok (response, suggestions), s')
             /\ truthy response = true
             /\ Forall (fun t => truthy t = true) suggestions) as Hfb.
  { intros s0.
    destruct (fallback_response_shape w message s0) as (base & Hbase & H).
    destruct (topic_texts_truthy (detect_topic_in_TOPICS message))
      as [Hpool Hsugg].
    rewrite Forall_forall in Hpool. specialize (Hpool _ Hbase).
    destruct (_short_reflection message max_words_default).
    - destruct (lt_half _).
      + destruct H as (tmpl & _ & ->). eexists _, _, _.
        split; [reflexivity|]. split; [now apply truthy_app_r | exact Hsugg].
      + rewrite H. eauto 8.
    - rewrite H. eauto 8. }
  unfold get_chat_response.
  destruct (_is_crisis message).
  - eexists _, _, _. split; [reflexivity|].
    split; [reflexivity|]. repeat constructor.
  - unfold bind.
    destruct (get_ai_response_total cfg w message s) as (r & s1 & ->).
    destruct r as [text|]; [|apply Hfb].
    destruct (truthy text) eqn:Ht; [|apply Hfb].
    eexists _, _, _. split; [reflexivity|].
    split; [exact Ht|]. repeat constructor.
Qed.

End EngineFacts.

(** ** The reflected phrase and the keyword table *)

Module PhraseFacts.

Import PyFacts ChatService ChatFacts.
Local Open Scope string_scope.

Section Kept.
Variable P : N -> Prop.






End Kept.









Lemma substring_trans (a b s : str) :
  substring a b -> substring b s -> substring a s.
Proof.
  intros (b1 & b2 & ->) (s1 & s2 & ->).
  exists (s1 ++ b1)%list, (b2 ++ s2)%list. now rewrite <- !app_assoc.
Qed.

(** A keyword that holds another keyword of the list adds nothing. *)
Lemma any_in_without (kws1 kws2 : list str) (kw kw' s : str) :
  In kw (kws1 ++ kws2) -> substring kw kw' ->
  any_in (kws1 ++ kw' :: kws2) s = any_in (kws1 ++ kws2) s.
Proof.
  intros Hkw Hsub. apply eq_true_iff_eq. rewrite !any_in_iff.
  split; intros (k & Hin & Hk).
  - apply in_app_iff in Hin as [Hin|[<-|Hin]].
    + exists k. split; [apply in_app_iff; now left | exact Hk].
    + exists kw. split; [exact Hkw | eapply substring_trans; eauto].
    + exists k. split; [apply in_app_iff; now right | exact Hk].
  - exists k. split; [|exact Hk].
    apply in_app_iff in Hin as [Hin|Hin]; apply in_app_iff;
      [now left | right; now right].
Qed.

(** A keyword that does not occur adds nothing. *)
Lemma any_in_without_absent (kws1 kws2 : list str) (kw' s : str) :
  contains kw' s = false ->
  any_in (kws1 ++ kw' :: kws2) s = any_in (kws1 ++ kws2) s.
Proof.
  intros H. unfold any_in. rewrite !existsb_app. simpl. now rewrite H.
Qed.

Lemma any_in_false (kws : list str) (kw s : str) :
  any_in kws s = false -> In kw kws -> contains kw s = false.
Proof.
  intros Hany Hin. destruct (contains kw s) eqn:E; [|reflexivity].
  assert (any_in kws s = true) as Ht
      by (apply existsb_exists; exists kw; split; assumption).
  congruence.
Qed.

(** X5: three keywords of [_detect_topic] never decide: "stressed" and
    "can't sleep", because "stress" and "sleep" stand in the same list
    and occur wherever they do, and "tired" in the sleep list, because
    the stress list holds it and is tried first.  The classification
    is the ordered matching against the table without them. *)
Theorem detect_topic_deciding_keywords (message : str) :
  _detect_topic message
  = first_matching_topic DECIDING_KEYWORDS (lower message).
Proof.
  rewrite detect_topic_first_match.
  cbv [TOPIC_KEYWORDS DECIDING_KEYWORDS first_matching_topic].
  set (s := lower message).
  assert (any_in (map lit ["stress"; "stressed"; "overwhelm"; "pressure";
                           "busy"; "tired"]) s
          = any_in (map lit ["stress"; "overwhelm"; "pressure"; "busy";
                             "tired"]) s) as Hstress.
  { apply (@any_in_without [lit "stress"]
             (map lit ["overwhelm"; "pressure"; "busy"; "tired"])
             (lit "stress") (lit "stressed")).
    - left; reflexivity.
    - exists [], (lit "ed"). run. }
  rewrite Hstress. clear Hstress.
  destruct (any_in (map lit ["depress"; "sad"; "hopeless"; "empty";
                             "worthless"; "down"; "low"]) s); [reflexivity|].
  destruct (any_in (map lit ["anxious"; "anxiety"; "panic"; "worry";
                             "worried"; "nervous"; "scared"]) s);
    [reflexivity|].
  destruct (any_in (map lit ["stress"; "overwhelm"; "pressure"; "busy";
                             "tired"]) s) eqn:Hno; [reflexivity|].
  destruct (any_in (map lit ["lonely"; "alone"; "isolat"; "disconnect";
                             "no one"; "friend"]) s); [reflexivity|].
  assert (any_in (map lit ["sleep"; "insomnia"; "tired"; "exhausted";
                           "can't sleep"]) s
          = any_in (map lit ["sleep"; "insomnia"; "exhausted"]) s) as ->;
    [|reflexivity].
  transitivity (any_in (map lit ["sleep"; "insomnia"; "tired"; "exhausted"]) s).
  - apply (@any_in_without (map lit ["sleep"; "insomnia"; "tired"; "exhausted"])
             [] (lit "sleep") (lit "can't sleep")).
    + left; reflexivity.
    + exists (lit "can't "), []. run.
  - apply (@any_in_without_absent (map lit ["sleep"; "insomnia"])
             (map lit ["exhausted"]) (lit "tired")).
    eapply any_in_false; [exact Hno | simpl; tauto].
Qed.

End PhraseFacts.

(** ** Accounts *)

Module AccountFacts.

Import PyFacts Auth Models Database ChatService Main AuthFacts MainFacts.
Local Open Scope string_scope.


Lemma encode_utf8_total (p : str) :
  existsb is_surrogate p = false -> exists bs, encode_utf8 p = Ok bs.
Proof.
  induction p as [|c p IH]; simpl; [eauto|].
  intros H. apply orb_false_iff in H as [Hc Hp]. rewrite Hc.
  destruct (IH Hp) as [bs ->]. eauto.
Qed.

Lemma encode_utf8_surrogate (p : str) :
  existsb is_surrogate p = true -> encode_utf8 p = Raise UnicodeEncodeError.
Proof.
  induction p as [|c p IH]; simpl; [discriminate|].
  destruct (is_surrogate c); [reflexivity|]. simpl. intros H.
  now rewrite (IH H).
Qed.

Lemma utf8_width_sum_bounds (p : str) :
  len p <= list_sum (map utf8_width p) <= 4 * len p.
Proof.
  unfold len. induction p as [|c p IH]; simpl; [lia|].
  assert (1 <= utf8_width c <= 4)
    by (unfold utf8_width;
        repeat match goal with |- context [if ?b then _ else _] => destruct b end;
        lia).
  lia.
Qed.

Lemma utf8_width_sum_ascii (p : str) :
  forallb (fun c => (c <? 128)%N) p = true ->
  list_sum (map utf8_width p) = len p.
Proof.
  unfold len. induction p as [|c p IH]; simpl; [reflexivity|].
  intros H. apply andb_true_iff in H as [Hc Hp].
  unfold utf8_width at 1. rewrite Hc, (IH Hp). reflexivity.
Qed.

Section Passwords.
Context {pwd_context : Passlib.CryptContext}.

(** X6: for a password without lone surrogates, [hash_password] raises
    the error 400 whenever the password has more than 72 characters,
    and hands the password to the password context whenever it has at
    most 18 characters, or at most 72 characters all of them ASCII; a
    password with a lone surrogate raises [UnicodeEncodeError]. *)
Theorem hash_password_length_bounds (p : str) (salt : list N) :
  (existsb is_surrogate p = false -> 72 < len p ->
   hash_password (VStr p) salt
   = Raise (HTTPException 400 (lit "Password too long")))
  /\ (existsb is_surrogate p = false -> len p <= 18 ->
      hash_password (VStr p) salt = Passlib.hash p salt)
  /\ (forallb (fun c => (c <? 128)%N) p = true -> len p <= 72 ->
      hash_password (VStr p) salt = Passlib.hash p salt)
  /\ (existsb is_surrogate p = true ->
      hash_password (VStr p) salt = Raise UnicodeEncodeError).
Proof.
  pose proof (utf8_width_sum_bounds p) as Hb.
  assert (forall bs, encode_utf8 p = Ok bs ->
                     hash_password (VStr p) salt
                     = if (72 <? list_sum (map utf8_width p))%nat
                       then Raise (HTTPException 400 (lit "Password too long"))
                       else Passlib.hash p salt) as Hrun.
  { intros bs Hbs. unfold hash_password.
    now rewrite Hbs, (encode_utf8_length _ Hbs). }
  repeat split.
  - intros Hs Hlen. destruct (encode_utf8_total _ Hs) as [bs Hbs].
    rewrite (Hrun _ Hbs).
    destruct (Nat.ltb_spec 72 (list_sum (map utf8_width p)));
      [reflexivity | lia].
  - intros Hs Hlen. destruct (encode_utf8_total _ Hs) as [bs Hbs].
    rewrite (Hrun _ Hbs).
    destruct (Nat.ltb_spec 72 (list_sum (map utf8_width p)));
      [lia | reflexivity].
  - intros Hascii Hlen.
    assert (existsb is_surrogate p = false) as Hs.
    { clear - Hascii. induction p as [|c p IH]; simpl in *; [reflexivity|].
      apply andb_true_iff in Hascii as [Hc Hp]. rewrite (IH Hp), orb_false_r.
      unfold is_surrogate. apply N.ltb_lt in Hc.
      destruct (N.leb_spec 55296 c); [lia | reflexivity]. }
    destruct (encode_utf8_total _ Hs) as [bs Hbs].
    rewrite (Hrun _ Hbs), (utf8_width_sum_ascii _ Hascii).
    destruct (Nat.ltb_spec 72 (len p)); [lia | reflexivity].
  - intros Hs. unfold hash_password.
    now rewrite (encode_utf8_surrogate _ Hs).
Qed.

End Passwords.

Lemma hash_password_length_bounds_witness :
  @hash_password Plain.passlib (VStr (repeat 97%N 73)) []
  = Raise (HTTPException 400 (lit "Password too long"))
  /\ @hash_password Plain.passlib (VStr (repeat 128512%N 18)) []
     = Ok (lit "$2b$12$" ++ repeat 128512%N 18)%list
  /\ @hash_password Plain.passlib (VStr (repeat 97%N 72)) []
     = Ok (lit "$2b$12$" ++ repeat 97%N 72)%list
  /\ @hash_password Plain.passlib (VStr [97%N; 55357%N]) []
     = Raise UnicodeEncodeError.
Proof.
  pose proof (@hash_password_length_bounds Plain.passlib (repeat 97%N 73) [])
    as (H1 & _).
  pose proof (@hash_password_length_bounds Plain.passlib
                (repeat 128512%N 18) []) as (_ & H2 & _).
  pose proof (@hash_password_length_bounds Plain.passlib (repeat 97%N 72) [])
    as (_ & _ & H3 & _).
  pose proof (@hash_password_length_bounds Plain.passlib [97%N; 55357%N] [])
    as (_ & _ & _ & H4).
  split; [apply H1; [reflexivity | vm_compute; lia]|].
  split; [apply H2; [reflexivity | vm_compute; lia]|].
  split; [apply H3; [reflexivity | vm_compute; lia]|].
  apply H4. reflexivity.
Defined.

Lemma NoDup_snoc {A} (l : list A) (x : A) :
  NoDup l -> ~ In x l -> NoDup (l ++ [x]).
Proof.
  intros Hl Hx. apply NoDup_app; [exact Hl | repeat constructor; intros [] |].
  intros y Hy [<-|[]]. exact (Hx Hy).
Qed.

(** When the [INSERT] of a user goes through. *)
Lemma insert_user_cases (name mail h : str) (now : Z) (d : db) :
  (insert_user name mail h now d = None
   /\ exists u, In u (users d) /\ (u_username u = name \/ u_email u = mail))
  \/
  (insert_user name mail h now d
   = Some {| users :=
               users d
               ++ [{| u_id := next_rowid (seq_users d) (map u_id (users d));
                      u_username := name; u_email := mail;
                      u_password_hash := h; u_created_at := now |}];
             chat_sessions := chat_sessions d;
             messages := messages d;
             seq_users := next_rowid (seq_users d) (map u_id (users d));
             seq_chat_sessions := seq_chat_sessions d;
             seq_messages := seq_messages d |}
   /\ forall u, In u (users d) -> u_username u <> name /\ u_email u <> mail).
Proof.
  unfold insert_user.
  destruct (existsb _ (users d)) eqn:E.
  - left. split; [reflexivity|].
    apply existsb_exists in E as (u & Hu & H). exists u. split; [exact Hu|].
    apply orb_true_iff in H as [H|H]; apply eqb_eq in H; auto.
  - right. split; [reflexivity|]. intros u Hu.
    assert (eqb (u_username u) name || eqb (u_email u) mail = false) as H.
    { destruct (eqb (u_username u) name || eqb (u_email u) mail) eqn:F;
        [|reflexivity].
      assert (existsb (fun u => eqb (u_username u) name || eqb (u_email u) mail)
                (users d) = true) as Ht
          by (apply existsb_exists; eauto).
      congruence. }
    apply orb_false_iff in H as [H1 H2].
    split; intros Heq; apply eqb_eq in Heq; congruence.
Qed.

Lemma filter_none {A} (f : A -> bool) (l : list A) :
  (forall x, In x l -> f x = false) -> filter f l = [].
Proof.
  induction l as [|x l IH]; intros H; simpl; [reflexivity|].
  rewrite (H x (or_introl eq_refl)). apply IH. intros y Hy. apply H. now right.
Qed.

Lemma select_user_id_snoc (name : str) (d d' : db) (row : user_row) :
  users d' = (users d ++ [row])%list -> u_username row = name ->
  (forall u, In u (users d) -> u_username u <> name) ->
  select_user_id name d' = Some (u_id row)
  /\ select_user name d' = Some (name, u_password_hash row).
Proof.
  intros Hus Hrow Hold. unfold select_user_id, select_user.
  rewrite Hus, filter_app.
  assert (filter (fun u => eqb (u_username u) name) (users d) = []) as ->.
  { apply filter_none. intros u Hu.
    destruct (eqb (u_username u) name) eqn:E; [|reflexivity].
    apply eqb_eq in E. now elim (Hold u Hu). }
  subst name. simpl. rewrite eqb_refl. split; reflexivity.
Qed.

Section Registration.
Context {pwd_context : Passlib.CryptContext} {jwt : Jose.Lib}.



End Registration.

(** What a registration that went through has done. *)
Lemma register_ok_inv
  {pwd_context : Passlib.CryptContext} {jwt : Jose.Lib}
  (now : Z) (data : UserRegister) (salt : list N) (d d' : db)
  (token : TokenResponse) :
  register now data salt d = (Ok token, d') ->
  exists h id,
    hash_password (VStr (Models.password data)) salt = Ok h
    /\ Passlib.hash (Models.password data) salt = Ok h
    /\ (forall u, In u (users d) ->
          u_username u <> lower (Models.username data)
          /\ u_email u <> lower (Models.email data))
    /\ ~ In id (map u_id (users d))
    /\ users d'
       = (users d
          ++ [{| u_id := id; u_username := lower (Models.username data);
                 u_email := lower (Models.email data);
                 u_password_hash := h; u_created_at := now |}])%list
    /\ chat_sessions d' = chat_sessions d
    /\ messages d' = messages d
    /\ select_user_id (lower (Models.username data)) d' = Some id
    /\ select_user (lower (Models.username data)) d'
       = Some (lower (Models.username data), h)
    /\ token = {| access_token :=
                    create_token now (lower (Models.username data));
                  token_type := lit "bearer" |}.
Proof.
  intros Hrun. unfold register in Hrun.
  destruct (hash_password (VStr (Models.password data)) salt) as [h|e] eqn:Hh;
    [|discriminate].
  assert (Passlib.hash (Models.password data) salt = Ok h) as Hlib.
  { unfold hash_password in Hh.
    destruct (encode_utf8 (Models.password data)); [|discriminate].
    destruct (72 <? _)%nat; [discriminate | exact Hh]. }
  destruct (insert_user_cases (lower (Models.username data))
              (lower (Models.email data)) h now d)
    as [(Hnone & _)|(Hsome & Hfree)]; rewrite ?Hnone, ?Hsome in Hrun;
    [discriminate|].
  injection Hrun as <- <-.
  exists h, (next_rowid (seq_users d) (map u_id (users d))).
  split; [reflexivity|]. split; [exact Hlib|]. split; [exact Hfree|].
  split; [apply next_rowid_fresh|].
  split; [reflexivity|]. split; [reflexivity|]. split; [reflexivity|].
  rewrite <- and_assoc. split; [|reflexivity].
  apply (@select_user_id_snoc _ d _
           {| u_id := next_rowid (seq_users d) (map u_id (users d));
              u_username := lower (Models.username data);
              u_email := lower (Models.email data);
              u_password_hash := h; u_created_at := now |});
    [reflexivity | reflexivity |].
  intros u Hu. now destruct (Hfree u Hu).
Qed.


(** A token just issued decodes to its user until it expires. *)
Lemma decode_token_until_expiry
  {jwt : Jose.Lib} {laws : Jose.Laws jwt} (issued now : Z) (u : str) :
  (now <= issued + 604800)%Z ->
  decode_token now (create_token issued u) = Ok (Some u).
Proof.
  intros H. unfold decode_token, create_token, Jose.decode, Jose.encode.
  rewrite Jose.verify_sign. simpl Jose.exp.
  change (days ACCESS_TOKEN_EXPIRE_DAYS) with 604800%Z.
  cbv beta iota.
  destruct (Z.ltb_spec (issued + 604800) now); [lia | reflexivity].
Qed.

Lemma bearer_prefix (token : str) :
  truthy (lit "Bearer " ++ token)%list = true
  /\ startswith (lit "Bearer " ++ token)%list (lit "Bearer ") = true
  /\ slice_from 7 (lit "Bearer " ++ token)%list = token.
Proof.
  split; [reflexivity|]. split; [apply startswith_app|].
  unfold slice_from. change 7 with (List.length (lit "Bearer ")).
  apply skipn_length_app.
Qed.

Section Sessions.
Context {pwd_context : Passlib.CryptContext}.
Context {jwt : Jose.Lib} {laws : Jose.Laws jwt}.

(** X9: a token issued for a user name authenticates a request as
    that user for 7 days, when it comes after "Bearer " in the
    [Authorization] header, and also when there is no such header and
    it is the value of the cookie [sage_token] and not empty.  A token
    issued for the empty user name authenticates nobody: the request
    gets the error 401. *)
Theorem issued_token_authenticates
  (issued now : Z) (request : Request) (u : str) :
  (now <= issued + 604800)%Z ->
  let token := create_token issued u in
  let outcome :=
    if truthy u then Ok u
    else Raise (HTTPException 401 (lit "Not authenticated")) in
  (headers_get (headers request) (lit "Authorization")
   = Some (lit "Bearer " ++ token)%list ->
   require_auth now request = outcome)
  /\ (headers_get (headers request) (lit "Authorization") = None ->
      cookies_get (cookies request) (lit "sage_token") = Some token ->
      truthy token = true ->
      require_auth now request = outcome).
Proof.
  intros Hnow token outcome.
  pose proof (decode_token_until_expiry issued u Hnow) as Hdec.
  fold token in Hdec.
  destruct (bearer_prefix token) as (Ht & Hs & Hslice).
  split.
  - intros Hhdr. unfold require_auth, get_current_user.
    rewrite Hhdr, Ht, Hs. simpl andb. cbv iota.
    rewrite Hslice, Hdec. reflexivity.
  - intros Hhdr Hck Htok. unfold require_auth, get_current_user, user_of_cookie.
    rewrite Hhdr, Hck, Htok, Hdec. reflexivity.
Qed.


Context {pwd_laws : Passlib.Laws pwd_context}.


End Sessions.



Lemma issued_token_authenticates_witness :
  @require_auth Plain.jose 100 (Sample.bearer (Sample.token_of (lit "alice")))
  = Ok (lit "alice")
  /\ @require_auth Plain.jose 100 (Sample.bearer (Sample.token_of (lit "")))
     = Raise (HTTPException 401 (lit "Not authenticated")).
Proof.
  assert (100 <= 0 + 604800)%Z as Hnow by lia.
  split.
  - destruct (@issued_token_authenticates Plain.jose plain_laws 0 100
                (Sample.bearer (Sample.token_of (lit "alice"))) (lit "alice")
                Hnow) as [Hbearer _].
    apply Hbearer. reflexivity.
  - destruct (@issued_token_authenticates Plain.jose plain_laws 0 100
                (Sample.bearer (Sample.token_of (lit ""))) (lit "")
                Hnow) as [Hbearer _].
    apply Hbearer. reflexivity.
Defined.



End AccountFacts.

(** ** The store across requests *)

Module StoreFacts.

Import PyFacts Auth Models Database ChatService Main.
Import ChatFacts AuthFacts MainFacts AccountFacts.
Local Open Scope string_scope.

Lemma flat_map_nil {A B} (f : A -> list B) (l : list A) :
  (forall x, In x l -> f x = []) -> flat_map f l = [].
Proof.
  induction l as [|x l IH]; intros H; simpl; [reflexivity|].
  rewrite (H x (or_introl eq_refl)). apply IH. intros y Hy. apply H. now right.
Qed.

(** A join condition met by one row of a table without repeated rows
    yields one row. *)
Lemma flat_map_single {A B} (c : A -> bool) (y : B) (l : list A) (a0 : A) :
  NoDup l -> In a0 l -> c a0 = true ->
  (forall a, In a l -> c a = true -> a = a0) ->
  flat_map (fun a => if c a then [y] else []) l = [y].
Proof.
  induction l as [|x l IH]; simpl; [tauto|].
  intros Hnd Hin Hc Huniq. inversion Hnd as [|? ? Hx Hnd']; subst.
  destruct (c x) eqn:E.
  - assert (x = a0) as -> by (apply Huniq; auto).
    simpl. f_equal. apply flat_map_nil. intros a Ha.
    destruct (c a) eqn:Ea; [|reflexivity].
    assert (a = a0) as -> by (apply Huniq; auto). contradiction.
  - destruct Hin as [->|Hin]; [congruence|].
    apply IH; auto.
Qed.

Lemma In_firstn {A} (n : nat) (l : list A) (x : A) :
  In x (firstn n l) -> In x l.
Proof.
  intros H. rewrite <- (firstn_skipn n l). apply in_app_iff. now left.
Qed.

(** The store after an exchange of a user who has a row. *)
Lemma save_exchange_found
  (now : Z) (username message response : str) (d : db) (uid : Z) :
  select_user_id username d = Some uid ->
  let sid := next_rowid (seq_chat_sessions d) (map s_id (chat_sessions d)) in
  let mid1 := next_rowid (seq_messages d) (map m_id (messages d)) in
  let m1 := {| m_id := mid1; m_session_id := sid; m_role := lit "user";
               m_content := message; m_created_at := now |} in
  let mid2 := next_rowid mid1 (map m_id (messages d ++ [m1])) in
  let m2 := {| m_id := mid2; m_session_id := sid; m_role := lit "assistant";
               m_content := response; m_created_at := now |} in
  save_exchange now username message response d
  = {| users := users d;
       chat_sessions :=
         (chat_sessions d
          ++ [{| s_id := sid; s_user_id := uid; s_created_at := now |}])%list;
       messages := ((messages d ++ [m1]) ++ [m2])%list;
       seq_users := seq_users d;
       seq_chat_sessions := sid;
       seq_messages := mid2 |}.
Proof. intros H. unfold save_exchange. rewrite H. reflexivity. Qed.

(** Saving an exchange keeps the key constraints and the references. *)
Lemma save_exchange_consistent
  (now : Z) (username message response : str) (d : db) :
  schema_ok d -> refs_ok d ->
  schema_ok (save_exchange now username message response d)
  /\ refs_ok (save_exchange now username message response d).
Proof.
  intros Hs Hr.
  destruct (select_user_id username d) as [uid|] eqn:Hu;
    [|unfold save_exchange; rewrite Hu; split; assumption].
  rewrite (save_exchange_found now username message response d Hu).
  cbv zeta.
  set (sid := next_rowid (seq_chat_sessions d) (map s_id (chat_sessions d))).
  set (mid1 := next_rowid (seq_messages d) (map m_id (messages d))).
  set (m1 := {| m_id := mid1; m_session_id := sid; m_role := lit "user";
                m_content := message; m_created_at := now |}).
  set (mid2 := next_rowid mid1 (map m_id (messages d ++ [m1]))).
  split.
  - destruct Hs as [H1 H2 H3 H4 H5]. constructor; cbn [users chat_sessions messages];
      try assumption.
    + rewrite map_app. apply NoDup_snoc; [exact H4 | apply next_rowid_fresh].
    + rewrite map_app. apply NoDup_snoc; [|apply next_rowid_fresh].
      rewrite map_app. apply NoDup_snoc; [exact H5 | apply next_rowid_fresh].
  - destruct Hr as [Hm Hss]. constructor; cbn [users chat_sessions messages].
    + intros m Hin. rewrite map_app. apply in_app_iff.
      apply in_app_iff in Hin as [Hin|[<-|[]]];
        [apply in_app_iff in Hin as [Hin|[<-|[]]]|].
      * left. now apply Hm.
      * right. left. reflexivity.
      * right. left. reflexivity.
    + intros s0 Hin. apply in_app_iff in Hin as [Hin|[<-|[]]].
      * now apply Hss.
      * cbn [s_user_id].
        destruct (select_user_id_some _ _ Hu) as (u & Hin & _ & <-).
        now apply in_map.
Qed.

Section Requests.
Context {jwt : Jose.Lib}.
Variable cfg : config.
Variable w : world.

(** What [chat] does for an authenticated request. *)
Lemma chat_run
  (now : Z) (message : ChatMessage) (request : Request) (d : db)
  (s : effects) (username : str) :
  require_auth now request = Ok username ->
  exists response suggestions s',
    chat cfg w now message request d s
    = (Ok {| Models.response := response; Models.suggestions := suggestions |},
       save_exchange now username (Models.message message) response d, s').
Proof.
  intros Hauth. unfold chat. rewrite Hauth.
  destruct (get_chat_response_total cfg w (Models.message message) s)
    as ([resp sugg] & s1 & ->).
  eexists _, _, _. reflexivity.
Qed.

(** X13: [chat] keeps the key constraints of the schema and the
    references between the tables, whatever the request, the message
    and the surroundings. *)
Theorem chat_keeps_store_consistent
  (now : Z) (message : ChatMessage) (request : Request) (d : db)
  (s : effects) :
  schema_ok d -> refs_ok d ->
  schema_ok (snd (fst (chat cfg w now message request d s)))
  /\ refs_ok (snd (fst (chat cfg w now message request d s))).
Proof.
  intros Hs Hr. unfold chat.
  destruct (require_auth now request) as [username|e]; [|split; assumption].
  destruct (get_chat_response cfg w (Models.message message) s)
    as [[[resp sugg]|e] s1]; [|split; assumption].
  cbn [fst snd]. now apply save_exchange_consistent.
Qed.

(** X14: after a chat turn of a user who has a row, in a store that
    meets the key constraints and the references, the messages of the
    session the turn created, fetched by that user, are the two of the
    turn, in order: the user's message, then the response the turn
    returned. *)
Theorem chat_then_session_messages
  (now : Z) (message : ChatMessage) (request : Request) (d : db)
  (s : effects) (username : str) (uid : Z) :
  schema_ok d -> refs_ok d ->
  require_auth now request = Ok username ->
  select_user_id username d = Some uid ->
  exists r d' s' sid,
    chat cfg w now message request d s = (Ok r, d', s')
    /\ ~ In sid (map s_id (chat_sessions d))
    /\ In sid (map s_id (chat_sessions d'))
    /\ forall now2 request2,
        require_auth now2 request2 = Ok username ->
        get_session_messages now2 sid request2 d'
        = (Ok [ {| v_role := lit "user";
                   v_content := Models.message message;
                   v_created_at := now |};
                {| v_role := lit "assistant";
                   v_content := response r;
                   v_created_at := now |} ],
           d').
Proof.
  intros Hs Hr Hauth Hu.
  destruct (chat_run now message request d s Hauth)
    as (resp & sugg & s' & Hchat).
  rewrite (save_exchange_found now username (Models.message message) resp d Hu)
    in Hchat. cbv zeta in Hchat.
  set (sid := next_rowid (seq_chat_sessions d) (map s_id (chat_sessions d)))
    in *.
  set (mid1 := next_rowid (seq_messages d) (map m_id (messages d))) in *.
  set (m1 := {| m_id := mid1; m_session_id := sid; m_role := lit "user";
                m_content := Models.message message; m_created_at := now |})
    in *.
  set (mid2 := next_rowid mid1 (map m_id (messages d ++ [m1]))) in *.
  set (m2 := {| m_id := mid2; m_session_id := sid; m_role := lit "assistant";
                m_content := resp; m_created_at := now |}) in *.
  set (snew := {| s_id := sid; s_user_id := uid; s_created_at := now |}) in *.
  eexists _, _, _, sid. split; [exact Hchat|].
  assert (~ In sid (map s_id (chat_sessions d))) as Hfresh
      by apply next_rowid_fresh.
  split; [exact Hfresh|].
  split; [cbn [chat_sessions]; rewrite map_app; apply in_app_iff; right;
          left; reflexivity|].
  intros now2 request2 Hauth2. unfold get_session_messages. rewrite Hauth2.
  destruct (select_user_id_some _ _ Hu) as (u0 & Hu0 & Hname & Hid).
  assert (select_session_messages sid username
            {| users := users d;
               chat_sessions := (chat_sessions d ++ [snew])%list;
               messages := ((messages d ++ [m1]) ++ [m2])%list;
               seq_users := seq_users d;
               seq_chat_sessions := sid;
               seq_messages := mid2 |} = [m1; m2]) as ->; [|reflexivity].
  unfold select_session_messages. cbn [users chat_sessions messages].
  assert (forall m, m_session_id m = sid ->
            flat_map (fun s0 =>
              flat_map (fun u =>
                if (m_session_id m =? s_id s0)%Z && (s_user_id s0 =? u_id u)%Z
                   && (s_id s0 =? sid)%Z && eqb (u_username u) username
                then [m] else []) (users d))
              (chat_sessions d ++ [snew]) = [m]) as Hnew.
  { intros m Hm. rewrite flat_map_app.
    rewrite flat_map_nil.
    - cbn [flat_map]. rewrite app_nil_r. cbn [app].
      apply (@flat_map_single _ _
               (fun u => (m_session_id m =? s_id snew)%Z
                         && (s_user_id snew =? u_id u)%Z
                         && (s_id snew =? sid)%Z
                         && eqb (u_username u) username) m (users d) u0).
      + eapply NoDup_map_inv. exact (users_pk Hs).
      + exact Hu0.
      + cbn [s_id s_user_id snew]. rewrite Hm, Hid, Hname, !Z.eqb_refl.
        now rewrite eqb_refl.
      + intros a Ha Hc. cbn [s_id s_user_id snew] in Hc.
        repeat (apply andb_true_iff in Hc as [Hc ?]).
        eapply NoDup_map_inj; [exact (users_pk Hs) | exact Ha | exact Hu0 |].
        rewrite Hid. symmetry. now apply Z.eqb_eq.
    - intros s0 Hs0. apply flat_map_nil. intros u _.
      destruct (Z.eqb_spec (s_id s0) sid) as [Heq|Hne].
      + elim Hfresh. rewrite <- Heq. now apply in_map.
      + now rewrite andb_false_r. }
  assert (forall m, In m (messages d) ->
            flat_map (fun s0 =>
              flat_map (fun u =>
                if (m_session_id m =? s_id s0)%Z && (s_user_id s0 =? u_id u)%Z
                   && (s_id s0 =? sid)%Z && eqb (u_username u) username
                then [m] else []) (users d))
              (chat_sessions d ++ [snew]) = []) as Hold.
  { intros m Hm. apply flat_map_nil. intros s0 _.
    apply flat_map_nil. intros u _.
    destruct (Z.eqb_spec (m_session_id m) (s_id s0)) as [Heq|Hne];
      [|reflexivity].
    destruct (Z.eqb_spec (s_id s0) sid) as [Heq2|Hne2];
      [|now rewrite andb_false_r].
    elim Hfresh. rewrite <- Heq2, <- Heq. now apply (message_session Hr). }
  rewrite !flat_map_app. rewrite (flat_map_nil _ _ Hold).
  cbn [flat_map app]. rewrite !app_nil_r.
  rewrite (Hnew m1 eq_refl), (Hnew m2 eq_refl).
  cbn [app]. unfold order_by_created_at. cbn [fold_right insert_by_time].
  cbn [m_created_at m1 m2]. now rewrite Z.leb_refl.
Qed.

(** X16: a request that [require_auth] rejects gets the same error
    from [chat], [get_session_messages], [get_history] and [me]; the
    store is left as it was, and [chat] neither contacts a provider nor
    draws a random value.  A request without an [Authorization] header
    and without the cookie [sage_token] is rejected with the error 401. *)
Theorem rejected_requests_do_nothing
  (now : Z) (message : ChatMessage) (session_id : Z) (request : Request)
  (d : db) (s : effects) (e : exn) :
  require_auth now request = Raise e ->
  chat cfg w now message request d s = (Raise e, d, s)
  /\ get_session_messages now session_id request d = (Raise e, d)
  /\ get_history now request d = (Raise e, d)
  /\ me now request = Raise e
  /\ (headers_get (headers request) (lit "Authorization") = None ->
      cookies_get (cookies request) (lit "sage_token") = None ->
      e = HTTPException 401 (lit "Not authenticated")).
Proof.
  intros Hauth.
  unfold chat, get_session_messages, get_history. rewrite Hauth.
  repeat split.
  - exact Hauth.
  - intros Hh Hc. unfold require_auth, get_current_user, user_of_cookie in Hauth.
    rewrite Hh, Hc in Hauth. congruence.
Qed.

End Requests.

Section History.
Context {jwt : Jose.Lib}.

Lemma insert_newest_first_In (s x : session_row) (l : list session_row) :
  In x (insert_newest_first s l) <-> x = s \/ In x l.
Proof.
  induction l as [|y l IH]; simpl; [intuition|].
  destruct (s_created_at y <=? s_created_at s)%Z; simpl; rewrite ?IH; intuition.
Qed.

Lemma order_by_created_at_desc_In (x : session_row) (l : list session_row) :
  In x (order_by_created_at_desc l) <-> In x l.
Proof.
  induction l as [|y l IH]; simpl; [tauto|].
  rewrite insert_newest_first_In, IH. intuition.
Qed.

Lemma insert_newest_first_sorted (s : session_row) (l : list session_row) :
  StronglySorted (fun a b => (s_created_at b <= s_created_at a)%Z) l ->
  StronglySorted (fun a b => (s_created_at b <= s_created_at a)%Z)
    (insert_newest_first s l).
Proof.
  induction 1 as [|y l Hl IH Hy]; simpl.
  - repeat constructor.
  - destruct (Z.leb_spec (s_created_at y) (s_created_at s)) as [Hle|Hgt].
    + constructor; [now constructor|].
      constructor; [exact Hle|].
      eapply Forall_impl; [|exact Hy]. cbv beta. intros; lia.
    + constructor; [exact IH|].
      apply Forall_forall. intros x Hx.
      apply insert_newest_first_In in Hx as [->|Hx]; [lia|].
      rewrite Forall_forall in Hy. now apply Hy.
Qed.

Lemma order_by_created_at_desc_sorted (l : list session_row) :
  StronglySorted (fun a b => (s_created_at b <= s_created_at a)%Z)
    (order_by_created_at_desc l).
Proof.
  induction l as [|y l IH]; simpl; [constructor|].
  now apply insert_newest_first_sorted.
Qed.

Lemma StronglySorted_firstn {A} (R : A -> A -> Prop) (n : nat) (l : list A) :
  StronglySorted R l -> StronglySorted R (firstn n l).
Proof.
  intros H. revert n. induction H as [|x l Hl IH Hx]; intros [|k]; simpl;
    try constructor; auto.
  apply Forall_forall. intros y Hy. apply In_firstn in Hy.
  rewrite Forall_forall in Hx. now apply Hx.
Qed.

Lemma StronglySorted_map {A B} (f : A -> B) (R : B -> B -> Prop) (l : list A) :
  StronglySorted (fun a b => R (f a) (f b)) l -> StronglySorted R (map f l).
Proof.
  induction 1 as [|x l Hl IH Hx]; simpl; constructor; auto.
  apply Forall_map. exact Hx.
Qed.

(** X15: for an authenticated user [get_history] returns, and leaves
    the store as it was; it lists at most 50 sessions, newest first,
    each of them a session of [chat_sessions] owned by a user with the
    requester's name, with its id, its time stamp and the number of
    message rows attached to it. *)
Theorem history_lists_own_sessions
  (now : Z) (request : Request) (d : db) (username : str) :
  require_auth now request = Ok username ->
  exists rows,
    get_history now request d = (Ok rows, d)
    /\ List.length rows <= 50
    /\ StronglySorted (fun a b => (h_created_at b <= h_created_at a)%Z) rows
    /\ forall row, In row rows ->
        exists s0 u,
          In s0 (chat_sessions d) /\ In u (users d)
          /\ s_user_id s0 = u_id u /\ u_username u = username
          /\ h_id row = s_id s0 /\ h_created_at row = s_created_at s0
          /\ h_msg_count row
             = List.length
                 (filter (fun m => (m_session_id m =? s_id s0)%Z) (messages d)).
Proof.
  intros Hauth. unfold get_history. rewrite Hauth.
  eexists. split; [reflexivity|]. split; [|split].
  - rewrite length_map. unfold select_history. apply firstn_le_length.
  - apply StronglySorted_map. cbn [h_created_at]. unfold select_history.
    apply StronglySorted_firstn, order_by_created_at_desc_sorted.
  - intros row Hrow. apply in_map_iff in Hrow as (s0 & <- & Hs0).
    unfold select_history in Hs0. apply In_firstn in Hs0.
    apply (proj1 (order_by_created_at_desc_In _ _)) in Hs0.
    apply in_flat_map in Hs0 as (s1 & Hs1 & H).
    apply in_flat_map in H as (u & Hu & H).
    destruct (_ && _) eqn:E in H; [|destruct H].
    destruct H as [<-|[]].
    apply andb_true_iff in E as [E1 E2].
    apply Z.eqb_eq in E1. apply eqb_eq in E2.
    exists s1, u. repeat split; assumption.
Qed.

End History.

Section Registered.
Context {pwd_context : Passlib.CryptContext}.
Context {jwt : Jose.Lib}.

(** X12: [register] keeps the key constraints of the schema and the
    references between the tables, whether it goes through or not. *)
Theorem register_keeps_store_consistent
  (now : Z) (data : UserRegister) (salt : list N) (d : db) :
  schema_ok d -> refs_ok d ->
  schema_ok (snd (register now data salt d))
  /\ refs_ok (snd (register now data salt d)).
Proof.
  intros Hs Hr. unfold register.
  destruct (hash_password (VStr (Models.password data)) salt) as [h|e];
    [|split; assumption].
  destruct (insert_user_cases (lower (Models.username data))
              (lower (Models.email data)) h now d)
    as [(-> & _)|(-> & Hfree)]; [split; assumption|].
  cbn [snd]. split.
  - destruct Hs as [H1 H2 H3 H4 H5].
    constructor; cbn [users chat_sessions messages]; try assumption;
      rewrite map_app; apply NoDup_snoc; try assumption.
    + apply next_rowid_fresh.
    + cbn [u_username]. intros Hin.
      apply in_map_iff in Hin as (u & Hname & Hu).
      now destruct (Hfree u Hu).
    + cbn [u_email]. intros Hin.
      apply in_map_iff in Hin as (u & Hmail & Hu).
      now destruct (Hfree u Hu).
  - destruct Hr as [Hm Hss].
    constructor; cbn [users chat_sessions messages]; [exact Hm|].
    intros s0 Hs0. rewrite map_app. apply in_app_iff. left. now apply Hss.
Qed.

Context {laws : Jose.Laws jwt}.
Variable cfg : config.
Variable w : world.

(** X17: the token a registration returns, sent as bearer within 7
    days by a user whose name is not empty, makes [chat] save the
    exchange in the store the registration left: one session owned by
    the row of the new user, and the two messages of the turn. *)
Theorem registered_user_chat_is_saved
  (now now2 : Z) (data : UserRegister) (salt : list N) (d d1 : db)
  (token : TokenResponse) (message : ChatMessage) (request : Request)
  (s : effects) :
  register now data salt d = (Ok token, d1) ->
  truthy (Models.username data) = true ->
  (now2 <= now + 604800)%Z ->
  headers_get (headers request) (lit "Authorization")
  = Some (lit "Bearer " ++ access_token token)%list ->
  exists r d2 s' u sid mid1 mid2,
    chat cfg w now2 message request d1 s = (Ok r, d2, s')
    /\ In u (users d1) /\ ~ In u (users d)
    /\ u_username u = lower (Models.username data)
    /\ users d2 = users d1
    /\ chat_sessions d2
       = (chat_sessions d1
          ++ [{| s_id := sid; s_user_id := u_id u; s_created_at := now2 |}])%list
    /\ messages d2
       = (messages d1
          ++ [{| m_id := mid1; m_session_id := sid; m_role := lit "user";
                 m_content := Models.message message;
                 m_created_at := now2 |};
              {| m_id := mid2; m_session_id := sid;
                 m_role := lit "assistant"; m_content := response r;
                 m_created_at := now2 |}])%list.
Proof.
  intros Hreg Hname Hnow Hhdr.
  destruct (register_ok_inv _ _ _ _ Hreg)
    as (h & id & _ & _ & Hfree & Hid & Hus & _ & _ & Hsel & _ & ->).
  cbn [access_token] in Hhdr.
  assert (require_auth now2 request = Ok (lower (Models.username data)))
    as Hauth.
  { destruct (bearer_prefix
                (create_token now (lower (Models.username data))))
      as (Ht & Hst & Hslice).
    unfold require_auth, get_current_user.
    rewrite Hhdr, Ht, Hst. simpl andb. cbv iota.
    rewrite Hslice, (decode_token_until_expiry _ _ Hnow).
    assert (truthy (lower (Models.username data)) = true) as ->
        by (destruct (Models.username data); [discriminate | reflexivity]).
    reflexivity. }
  destruct (chat_run cfg w now2 message request d1 s Hauth)
    as (resp & sugg & s' & Hchat).
  rewrite (save_exchange_found now2 _ (Models.message message) resp d1 Hsel)
    in Hchat. cbv zeta in Hchat.
  eexists _, _, _,
    {| u_id := id; u_username := lower (Models.username data);
       u_email := lower (Models.email data);
       u_password_hash := h; u_created_at := now |}, _, _, _.
  split; [exact Hchat|].
  split; [rewrite Hus; apply in_app_iff; right; left; reflexivity|].
  split; [intros Hin; apply Hid; now apply (in_map u_id) in Hin|].
  split; [reflexivity|]. split; [reflexivity|]. split; [reflexivity|].
  cbn [messages response]. rewrite <- app_assoc. reflexivity.
Qed.

End Registered.

Lemma two_users_refs_ok : refs_ok Sample.two_users.
Proof.
  constructor;
    [intros x [<-|[<-|[<-|[<-|[]]]]] | intros x [<-|[<-|[]]]];
    simpl; tauto.
Qed.

Lemma chat_keeps_store_consistent_witness :
  schema_ok (snd (fst (@chat Plain.jose no_credentials Sample.silent 100
                         {| Models.message := lit "hello" |}
                         (Sample.bearer (Sample.token_of (lit "alice")))
                         Sample.two_users start)))
  /\ refs_ok (snd (fst (@chat Plain.jose no_credentials Sample.silent 100
                          {| Models.message := lit "hello" |}
                          (Sample.bearer (Sample.token_of (lit "alice")))
                          Sample.two_users start))).
Proof.
  exact (@chat_keeps_store_consistent Plain.jose no_credentials Sample.silent
           100 {| Models.message := lit "hello" |}
           (Sample.bearer (Sample.token_of (lit "alice")))
           Sample.two_users start two_users_schema_ok two_users_refs_ok).
Defined.

Lemma register_keeps_store_consistent_witness :
  schema_ok (snd (@register Plain.passlib Plain.jose 100 Sample.newcomer
                    [7%N] Sample.two_users))
  /\ refs_ok (snd (@register Plain.passlib Plain.jose 100 Sample.newcomer
                     [7%N] Sample.two_users)).
Proof.
  exact (@register_keeps_store_consistent Plain.passlib Plain.jose 100
           Sample.newcomer [7%N] Sample.two_users
           two_users_schema_ok two_users_refs_ok).
Defined.

Lemma chat_then_session_messages_witness :
  exists r d' s' sid,
    @chat Plain.jose no_credentials Sample.silent 100
      {| Models.message := lit "hello" |}
      (Sample.bearer (Sample.token_of (lit "alice")))
      Sample.two_users start
    = (Ok r, d', s')
    /\ ~ In sid (map s_id (chat_sessions Sample.two_users))
    /\ In sid (map s_id (chat_sessions d'))
    /\ forall now2 request2,
        @require_auth Plain.jose now2 request2 = Ok (lit "alice") ->
        @get_session_messages Plain.jose now2 sid request2 d'
        = (Ok [ {| v_role := lit "user";
                   v_content :=
                     Models.message {| Models.message := lit "hello" |};
                   v_created_at := 100 |};
                {| v_role := lit "assistant";
                   v_content := response r;
                   v_created_at := 100 |} ],
           d').
Proof.
  refine (@chat_then_session_messages Plain.jose no_credentials Sample.silent
            100 {| Models.message := lit "hello" |}
            (Sample.bearer (Sample.token_of (lit "alice")))
            Sample.two_users start (lit "alice") 1%Z
            two_users_schema_ok two_users_refs_ok _ _).
  - vm_compute. reflexivity.
  - vm_compute. reflexivity.
Defined.

Lemma history_lists_own_sessions_witness :
  exists rows,
    @get_history Plain.jose 100
      (Sample.bearer (Sample.token_of (lit "alice"))) Sample.two_users
    = (Ok rows, Sample.two_users)
    /\ List.length rows <= 50.
Proof.
  assert (@require_auth Plain.jose 100
            (Sample.bearer (Sample.token_of (lit "alice")))
          = Ok (lit "alice")) as Hauth by (vm_compute; reflexivity).
  destruct (@history_lists_own_sessions Plain.jose 100
              (Sample.bearer (Sample.token_of (lit "alice")))
              Sample.two_users (lit "alice") Hauth)
    as (rows & Hrun & Hlen & _).
  exists rows. split; [exact Hrun | exact Hlen].
Defined.

Lemma rejected_requests_do_nothing_witness :
  @chat Plain.jose Sample.both_keys Sample.answering 100
    {| Models.message := lit "hello" |}
    {| headers := []; cookies := [] |} Sample.two_users start
  = (Raise (HTTPException 401 (lit "Not authenticated")),
     Sample.two_users, start).
Proof.
  assert (@require_auth Plain.jose 100 {| headers := []; cookies := [] |}
          = Raise (HTTPException 401 (lit "Not authenticated"))) as Hauth
      by (vm_compute; reflexivity).
  destruct (@rejected_requests_do_nothing Plain.jose Sample.both_keys
              Sample.answering 100 {| Models.message := lit "hello" |} 1%Z
              {| headers := []; cookies := [] |} Sample.two_users start _
              Hauth) as (Hchat & _).
  exact Hchat.
Defined.

Lemma registered_user_chat_is_saved_witness :
  exists r d2 s',
    @chat Plain.jose no_credentials Sample.silent 200
      {| Models.message := lit "hello" |}
      (Sample.bearer (Sample.token_of' 100 (lit "carol")))
      (snd (@register Plain.passlib Plain.jose 100 Sample.newcomer [7%N]
              Sample.two_users))
      start
    = (Ok r, d2, s')
    /\ List.length (chat_sessions d2) = 3
    /\ List.length (messages d2) = 6.
Proof.
  destruct (@registered_user_chat_is_saved Plain.passlib Plain.jose plain_laws
              no_credentials Sample.silent 100 200 Sample.newcomer [7%N]
              Sample.two_users
              (snd (@register Plain.passlib Plain.jose 100 Sample.newcomer
                      [7%N] Sample.two_users))
              {| access_token := Sample.token_of' 100 (lit "carol");
                 token_type := lit "bearer" |}
              {| Models.message := lit "hello" |}
              (Sample.bearer (Sample.token_of' 100 (lit "carol"))) start)
    as (r & d2 & s' & u & sid & mid1 & mid2 & Hchat & _ & _ & _ & _
        & Hss & Hms).
  - vm_compute. reflexivity.
  - reflexivity.
  - lia.
  - vm_compute. reflexivity.
  - exists r, d2, s'. split; [exact Hchat|].
    rewrite Hss, Hms, !length_app. split; reflexivity.
Defined.

End StoreFacts.
